(** * Shallow embedding of aws_nitro_enclaves.nsm (transport, client, errors)

    The Python package drives a native NSM session through CFFI
    ([_transport.py]); the high-level [NsmClient] ([client.py]) validates
    arguments and forwards to the transport.  The native library is an
    interface here ([NsmLib]): every Python-level definition is generic in it,
    and [NativeModel] gives the behaviour the spec prescribes for it.  The
    SHA-256 function of [hashlib] is a parameter of the definitions
    that hash (the class [Sha256]). *)

From Stdlib Require Import ZArith String Lia.
From stdpp Require Import base list list_numbers sorting gmap.

Open Scope Z_scope.
#[local] Set Warnings "-register-all".

Abbreviation byte := Byte.byte.

(** ** errors.py: the exception classes *)

(** The classes of [errors.py]; [OverflowError] is what CFFI raises when a
    Python int does not fit the C parameter type ([uint32_t] slots). *)
Inductive exc_class :=
| NsmError
| NsmDeviceNotFoundError
| NsmSessionClosedError
| NsmRandomError
| NsmInvalidPcrError
| NsmCertificateError
| NsmAttestationError
| NsmPcrLockedError
| OverflowError.

(** A raised exception: its class and its [__cause__] (messages are not
    modelled). *)
Inductive exc := Exc (cls : exc_class) (cause : option exc).

Definition exc_cls (e : exc) : exc_class := let 'Exc c _ := e in c.
Definition exc_cause (e : exc) : option exc := let 'Exc _ c := e in c.

(** [isinstance(e, NsmError)]: every class of [errors.py] derives from
    [NsmError]. *)
Definition is_nsm_error (c : exc_class) : bool :=
  match c with OverflowError => false | _ => true end.

(** ** A state and exception monad for Python code *)

Inductive res (A : Type) := Ok (a : A) | Raise (e : exc).
Arguments Ok {A} a.
Arguments Raise {A} e.

(** A statement run on the state [T] returns a value or raises; the state it
    leaves is kept in both cases (Python does not roll back). *)
Definition PyM (T A : Type) : Type := T -> res A * T.

Global Instance PyM_ret {T} : MRet (PyM T) := fun A a t => (Ok a, t).
Global Instance PyM_bind {T} : MBind (PyM T) := fun A B k m t =>
  match m t with
  | (Ok a, t') => k a t'
  | (Raise e, t') => (Raise e, t')
  end.

Definition raise {T A} (e : exc) : PyM T A := fun t => (Raise e, t).

(** [try: body except NsmError as exc: handler(exc)] *)
Definition try_except_nsm {T A} (body : PyM T A) (handler : exc -> PyM T A)
  : PyM T A := fun t =>
  match body t with
  | (Raise e, t') => if is_nsm_error (exc_cls e) then handler e t' else (Raise e, t')
  | r => r
  end.

(** [for x in xs: f(x)] collecting the results (a comprehension). *)
Fixpoint py_map {T A B} (f : A -> PyM T B) (xs : list A) : PyM T (list B) :=
  match xs with
  | [] => mret []
  | x :: rest => b ← f x; bs ← py_map f rest; mret (b :: bs)
  end.

(** ** The native interface declared in _cffi_build.py *)

Definition NSM_OK := 0.
Definition NSM_ERR_INVALID_SLOT := 1.
Definition NSM_ERR_LOCKED := 2.
Definition NSM_ERR_INVALID_LENGTH := 3.
Definition NSM_ERR_CERT_MISSING := 4.
Definition NSM_ERR_NO_MEMORY := 5.
Definition NSM_ERR_CLOSED := 6.

Definition PCR_SLOTS := 32.
Definition PCR_DIGEST_LEN := 32.
Definition CERTIFICATE_SLOTS := 4.

(** The functions of the native library used by the transport.  Out-buffers
    are returned as the bytes the call leaves in them; a function that
    mutates the session returns the new session. *)
Class NsmLib (S : Type) := {
  nsm_session_is_closed : S -> bool;
  nsm_session_close : S -> Z * S;
  nsm_module_id : S -> option string;
  nsm_describe_pcr : S -> Z -> Z * list byte;
  nsm_extend_pcr : S -> Z -> list byte -> Z * list byte * S;
  nsm_lock_pcr : S -> Z -> Z * S;
  nsm_lock_range : S -> Z -> Z * S;
  nsm_set_certificate : S -> Z -> list byte -> Z * S;
  nsm_describe_certificate : S -> Z -> Z * list byte;
  nsm_remove_certificate : S -> Z -> Z * S;
  nsm_locked_flags : S -> Z -> Z * list byte
}.

(** [hashlib.sha256]: the hash function is a parameter of the development. *)
Class Sha256 := sha256 : list byte -> list byte.

(** ** _transport.py *)

Module NsmTransport.

(** [_raise_error(code, context=...)]: the exception raised for a native
    status code, [None] for [NSM_OK]. *)
Definition raise_error_exc (code : Z) (context : string) : option exc :=
  if code =? NSM_OK then None
  else if code =? NSM_ERR_CLOSED then Some (Exc NsmSessionClosedError None)
  else if code =? NSM_ERR_NO_MEMORY then Some (Exc NsmError None)
  else if code =? NSM_ERR_INVALID_LENGTH then
    if String.eqb context "random" then Some (Exc NsmRandomError None)
    else if String.eqb context "certificate" then Some (Exc NsmCertificateError None)
    else Some (Exc NsmError None)
  else if code =? NSM_ERR_LOCKED then Some (Exc NsmPcrLockedError None)
  else if code =? NSM_ERR_CERT_MISSING then Some (Exc NsmCertificateError None)
  else if code =? NSM_ERR_INVALID_SLOT then
    if String.eqb context "pcr" then Some (Exc NsmInvalidPcrError None)
    else Some (Exc NsmCertificateError None)
  else Some (Exc NsmError None).

(** The transport object: the native session and [self._certificates]. *)
Record transport (S : Type) := mk_transport {
  session : S;
  certificates : gmap Z bool
}.
Arguments mk_transport {S} session certificates.
Arguments session {S} t.
Arguments certificates {S} t.

(** [dict(index=..., digest=..., locked=...)] of [describe_pcr_raw]. *)
Record pcr_raw := mk_pcr_raw { index : Z; digest : list byte; locked : bool }.

(** The payload dict of [get_attestation]. *)
Record payload := mk_payload {
  p_module_id : string;
  p_timestamp : Z;
  p_digest : list byte;
  p_pcrs : list (Z * list byte);
  p_locked_pcrs : list Z;
  p_certificate : option (list byte);
  p_cabundle : option (list byte);
  p_user_data : option (list byte);
  p_public_key : option (list byte);
  p_nonce : option (list byte)
}.

(** [hashlib.sha256()]: the hasher holds the bytes fed to it by [update]. *)
Definition hasher := list byte.
Definition hasher_update (h : hasher) (v : list byte) : hasher := h ++ v.

(** Python truthiness of an [Optional[bytes]]: [None] and [b""] are false. *)
Definition truthy (o : option (list byte)) : bool :=
  match o with Some (_ :: _) => true | _ => false end.

Definition byte_to_Z (b : byte) : Z := Z.of_N (Byte.to_N b).

(** [[index for index, state in enumerate(flags) if state]] *)
Fixpoint enumerate_set_from (i : Z) (flags : list Z) : list Z :=
  match flags with
  | [] => []
  | f :: rest =>
      if negb (f =? 0) then i :: enumerate_set_from (i + 1) rest
      else enumerate_set_from (i + 1) rest
  end.

Section Transport.
Context {S : Type} `{L : NsmLib S} `{Sha256}.

Local Abbreviation M := (PyM (transport S)).

(** A native call that only reads the session. *)
Definition call_ro {A} (f : S -> A) : M A := fun t => (Ok (f (session t)), t).

(** A native call that may update the session. *)
Definition call {A} (f : S -> A * S) : M A := fun t =>
  let '(a, s') := f (session t) in (Ok a, mk_transport s' (certificates t)).

(** An update of [self._certificates]. *)
Definition update_certificates (f : gmap Z bool -> gmap Z bool) : M unit :=
  fun t => (Ok (), mk_transport (session t) (f (certificates t))).

(** CFFI's conversion of a Python int to a [uint32_t] argument. *)
Definition ffi_uint32 (z : Z) : M Z :=
  if (0 <=? z) && (z <? 2 ^ 32) then mret z else raise (Exc OverflowError None).

Definition raise_error (code : Z) (context : string) : M unit :=
  match raise_error_exc code context with
  | None => mret ()
  | Some e => raise e
  end.

Definition close : M unit :=
  code ← call nsm_session_close;
  if (code =? NSM_OK) || (code =? NSM_ERR_CLOSED) then mret ()
  else raise_error code "general".

Definition is_closed : M bool := call_ro nsm_session_is_closed.

Definition locked_flags : M (list Z) :=
  '(code, buffer) ← call_ro (fun s => nsm_locked_flags s PCR_SLOTS);
  raise_error code "pcr";;
  mret (map byte_to_Z buffer).

Definition slot_locked (slot : Z) : M bool :=
  flags ← locked_flags;
  if (slot <? 0) || (slot >=? Z.of_nat (length flags))
  then raise (Exc NsmInvalidPcrError None)
  else mret (negb (nth (Z.to_nat slot) flags 0 =? 0)).

Definition describe_pcr_raw (slot : Z) : M pcr_raw :=
  slot32 ← ffi_uint32 slot;
  '(code, buffer) ← call_ro (fun s => nsm_describe_pcr s slot32);
  raise_error code "pcr";;
  is_locked ← slot_locked slot;
  mret (mk_pcr_raw slot buffer is_locked).

Definition describe_pcr (slot : Z) : M (list byte) :=
  raw ← describe_pcr_raw slot; mret (digest raw).

Definition extend_pcr (slot : Z) (data : list byte) : M (list byte) :=
  slot32 ← ffi_uint32 slot;
  buffer ← call (fun s => let '(code, out, s') := nsm_extend_pcr s slot32 data in
                          ((code, out), s'));
  let '(code, out) := buffer in
  raise_error code "pcr";;
  mret out.

Definition lock_pcr (slot : Z) : M bool :=
  slot32 ← ffi_uint32 slot;
  code ← call (fun s => nsm_lock_pcr s slot32);
  raise_error code "pcr";;
  mret true.

Definition lock_pcrs (lock_range : Z) : M bool :=
  range32 ← ffi_uint32 lock_range;
  code ← call (fun s => nsm_lock_range s range32);
  raise_error code "pcr";;
  mret true.

Definition set_certificate (slot : Z) (certificate : list byte) : M unit :=
  slot32 ← ffi_uint32 slot;
  code ← call (fun s => nsm_set_certificate s slot32 certificate);
  raise_error code "certificate";;
  update_certificates (<[slot := true]>).

Definition describe_certificate (slot : Z) : M (list byte) :=
  slot32 ← ffi_uint32 slot;
  '(code, data) ← call_ro (fun s => nsm_describe_certificate s slot32);
  raise_error code "certificate";;
  update_certificates (<[slot := true]>);;
  mret data.

Definition remove_certificate (slot : Z) : M unit :=
  slot32 ← ffi_uint32 slot;
  code ← call (fun s => nsm_remove_certificate s slot32);
  raise_error code "certificate";;
  update_certificates (delete slot).

Definition module_id : M string :=
  pointer ← call_ro nsm_module_id;
  match pointer with
  | None => raise (Exc NsmError None)
  | Some m => mret m
  end.

(** The loop of [_first_certificate] over the remaining slots. *)
Fixpoint first_certificate_from (slots : list Z) : M (option (list byte)) :=
  match slots with
  | [] => mret None
  | slot :: rest =>
      '(code, data) ← call_ro (fun s => nsm_describe_certificate s slot);
      if code =? NSM_OK then mret (Some data)
      else if code =? NSM_ERR_CERT_MISSING then first_certificate_from rest
      else raise_error code "certificate";; first_certificate_from rest
  end.

Definition first_certificate : M (option (list byte)) :=
  first_certificate_from (seqZ 0 CERTIFICATE_SLOTS).

(** [_attestation_digest] (a static method). *)
Definition attestation_digest (pcr_values : list (list byte))
    (user_data public_key nonce : option (list byte)) : list byte :=
  let h := foldl hasher_update [] pcr_values in
  let h := if truthy user_data then hasher_update h (default [] user_data) else h in
  let h := if truthy public_key then hasher_update h (default [] public_key) else h in
  let h := if truthy nonce then hasher_update h (default [] nonce) else h in
  sha256 h.

(** The body of the [try] block of [get_attestation]. *)
Definition attestation_snapshot (user_data public_key nonce : option (list byte))
    : M (list (Z * list byte) * list byte * list Z) :=
  pcrs ← py_map (fun index => d ← describe_pcr index; mret (index, d))
                (seqZ 0 PCR_SLOTS);
  let dg := attestation_digest (map snd pcrs) user_data public_key nonce in
  flags ← locked_flags;
  let lk := enumerate_set_from 0 flags in
  mret (pcrs, dg, lk).

(** [get_attestation]; [now] is [int(time.time())]. *)
Definition get_attestation (now : Z) (user_data public_key nonce : option (list byte))
    : M payload :=
  closed ← is_closed;
  if closed : bool then raise (Exc NsmSessionClosedError None) else
  snap ← try_except_nsm (T := transport S) (attestation_snapshot user_data public_key nonce)
           (fun exc => raise (Exc NsmAttestationError (Some exc)));
  let '(pcrs, dg, lk) := snap in
  mid ← module_id;
  cert ← first_certificate;
  mret (mk_payload mid now dg pcrs lk cert None user_data public_key nonce).

End Transport.
End NsmTransport.

(** ** client.py *)

Module NsmClient.
Import NsmTransport.

(** [types.PcrValue] *)
Record PcrValue := mk_PcrValue { slot : Z; pv_digest : list byte; pv_locked : bool }.

(** The calls of a session, [open()] excepted (it starts a new session). *)
Inductive client_op :=
| OpDescribePcr (slot : Z)
| OpExtendPcr (slot : Z) (data : list byte)
| OpLockPcr (slot : Z)
| OpLockPcrs (lock_range : Z)
| OpSetCertificate (slot : Z) (certificate : list byte)
| OpDescribeCertificate (slot : Z)
| OpRemoveCertificate (slot : Z)
| OpGetAttestation (now : Z) (user_data public_key nonce : option (list byte))
| OpClose.

Section Client.
Context {S : Type} `{L : NsmLib S} `{Sha256}.

(** The client object is its [self._transport]: [None] until [open()]. *)
Local Abbreviation CM := (PyM (option (transport S))).

(** [transport = self._require_transport()] followed by calls on it. *)
Definition with_transport {A} (m : PyM (transport S) A) : CM A := fun c =>
  match c with
  | None => (Raise (Exc NsmError None), None)
  | Some t => let '(r, t') := m t in (r, Some t')
  end.

Definition close : CM unit := fun c =>
  match c with
  | None => (Ok (), None)
  | Some _ =>
      with_transport
        (closed ← is_closed; if closed : bool then mret () else NsmTransport.close) c
  end.

Definition describe_pcr (slot : Z) : CM PcrValue :=
  if slot <? 0 then raise (Exc NsmError None) else
  with_transport
    (raw ← describe_pcr_raw slot;
     mret (mk_PcrValue slot (digest raw) (locked raw))).

Definition extend_pcr (slot : Z) (data : list byte) : CM PcrValue :=
  if slot <? 0 then raise (Exc NsmError None) else
  match data with
  | [] => raise (Exc NsmError None)
  | _ =>
      with_transport
        (dg ← NsmTransport.extend_pcr slot data;
         raw ← describe_pcr_raw slot;
         mret (mk_PcrValue slot dg (locked raw)))
  end.

Definition set_certificate (slot : Z) (certificate : list byte) : CM unit :=
  if slot <? 0 then raise (Exc NsmError None) else
  match certificate with
  | [] => raise (Exc NsmError None)
  | _ => with_transport (NsmTransport.set_certificate slot certificate)
  end.

Definition describe_certificate (slot : Z) : CM (list byte) :=
  if slot <? 0 then raise (Exc NsmError None) else
  with_transport (NsmTransport.describe_certificate slot).

Definition remove_certificate (slot : Z) : CM unit :=
  if slot <? 0 then raise (Exc NsmError None) else
  with_transport (NsmTransport.remove_certificate slot).

Definition lock_pcr (slot : Z) : CM bool :=
  if slot <? 0 then raise (Exc NsmError None) else
  with_transport (NsmTransport.lock_pcr slot).

Definition lock_pcrs (lock_range : Z) : CM bool :=
  if lock_range <? 0 then raise (Exc NsmError None) else
  with_transport (NsmTransport.lock_pcrs lock_range).

(** [get_attestation] returns [AttestationDocument.from_payload(payload)];
    the payload is kept as it is. *)
Definition get_attestation (now : Z) (user_data public_key nonce : option (list byte))
    : CM payload :=
  with_transport (NsmTransport.get_attestation now user_data public_key nonce).

(** The state after one call on the client; an exception it raises is
    caught by the caller and the session goes on. *)
Definition run_op (o : client_op) (c : option (transport S)) : option (transport S) :=
  match o with
  | OpDescribePcr slot => snd (describe_pcr slot c)
  | OpExtendPcr slot data => snd (extend_pcr slot data c)
  | OpLockPcr slot => snd (lock_pcr slot c)
  | OpLockPcrs r => snd (lock_pcrs r c)
  | OpSetCertificate slot cert => snd (set_certificate slot cert c)
  | OpDescribeCertificate slot => snd (describe_certificate slot c)
  | OpRemoveCertificate slot => snd (remove_certificate slot c)
  | OpGetAttestation now u p n => snd (get_attestation now u p n c)
  | OpClose => snd (close c)
  end.

Fixpoint run_ops (ops : list client_op) (c : option (transport S)) : option (transport S) :=
  match ops with
  | [] => c
  | o :: rest => run_ops rest (run_op o c)
  end.

End Client.
End NsmClient.

(** ** The native session *)

Module NativeModel.

(** Modelled from the spec: the native library [_native.c] (declared in
    [_cffi_build.py], its source is not in the repository).  The session is
    the struct of the declaration: a closed flag, the module id, 32 PCR
    digests with their lock flags and 4 certificate slots (a NULL pointer is
    [None]); arrays are functions of the index, read only below their size.
    Following the spec (sections 4.1 to 4.3 and 7): every operation on a
    closed session fails with [NSM_ERR_CLOSED] and changes nothing; PCR slots
    are [0, 32), certificate slots [0, 4); extending computes
    SHA256(old || data) and is refused on empty data and on a locked slot;
    locking is never undone; an empty certificate is refused.  Where several
    checks fail, they are made in the order: closed, slot, length, lock. *)
Record nsm_session := mk_session {
  closed : bool;
  module_id : string;
  pcrs : Z -> list byte;
  pcr_locks : Z -> bool;
  cert_data : Z -> option (list byte)
}.

Definition zero_digest : list byte := repeat Byte.x00 (Z.to_nat PCR_DIGEST_LEN).

(** [nsm_session_new]: open, 32 zero digests, unlocked, no certificate. *)
Definition nsm_session_new (mid : string) : nsm_session :=
  mk_session false mid (fun _ => zero_digest) (fun _ => false) (fun _ => None).

Definition set_closed (s : nsm_session) : nsm_session :=
  mk_session true (module_id s) (pcrs s) (pcr_locks s) (cert_data s).
Definition set_pcr (s : nsm_session) (slot : Z) (d : list byte) : nsm_session :=
  mk_session (closed s) (module_id s)
    (fun i => if i =? slot then d else pcrs s i) (pcr_locks s) (cert_data s).
Definition set_locks (s : nsm_session) (lk : Z -> bool) : nsm_session :=
  mk_session (closed s) (module_id s) (pcrs s) lk (cert_data s).
Definition set_cert (s : nsm_session) (slot : Z) (c : option (list byte)) : nsm_session :=
  mk_session (closed s) (module_id s) (pcrs s) (pcr_locks s)
    (fun i => if i =? slot then c else cert_data s i).

Section Model.
Context `{Sha256}.

Definition session_close (s : nsm_session) : Z * nsm_session :=
  if closed s then (NSM_ERR_CLOSED, s) else (NSM_OK, set_closed s).

Definition describe_pcr (s : nsm_session) (slot : Z) : Z * list byte :=
  if closed s then (NSM_ERR_CLOSED, zero_digest)
  else if slot >=? PCR_SLOTS then (NSM_ERR_INVALID_SLOT, zero_digest)
  else (NSM_OK, pcrs s slot).

Definition extend_pcr (s : nsm_session) (slot : Z) (data : list byte)
    : Z * list byte * nsm_session :=
  if closed s then (NSM_ERR_CLOSED, zero_digest, s)
  else if slot >=? PCR_SLOTS then (NSM_ERR_INVALID_SLOT, zero_digest, s)
  else if bool_decide (data = []) then (NSM_ERR_INVALID_LENGTH, zero_digest, s)
  else if pcr_locks s slot then (NSM_ERR_LOCKED, zero_digest, s)
  else let d := sha256 (pcrs s slot ++ data) in (NSM_OK, d, set_pcr s slot d).

Definition lock_pcr (s : nsm_session) (slot : Z) : Z * nsm_session :=
  if closed s then (NSM_ERR_CLOSED, s)
  else if slot >=? PCR_SLOTS then (NSM_ERR_INVALID_SLOT, s)
  else (NSM_OK, set_locks s (fun i => (i =? slot) || pcr_locks s i)).

Definition lock_range (s : nsm_session) (limit : Z) : Z * nsm_session :=
  if closed s then (NSM_ERR_CLOSED, s)
  else (NSM_OK, set_locks s (fun i => (i <? limit) || pcr_locks s i)).

Definition set_certificate (s : nsm_session) (slot : Z) (data : list byte)
    : Z * nsm_session :=
  if closed s then (NSM_ERR_CLOSED, s)
  else if slot >=? CERTIFICATE_SLOTS then (NSM_ERR_INVALID_SLOT, s)
  else if bool_decide (data = []) then (NSM_ERR_INVALID_LENGTH, s)
  else (NSM_OK, set_cert s slot (Some data)).

Definition describe_certificate (s : nsm_session) (slot : Z) : Z * list byte :=
  if closed s then (NSM_ERR_CLOSED, [])
  else if slot >=? CERTIFICATE_SLOTS then (NSM_ERR_INVALID_SLOT, [])
  else match cert_data s slot with
       | None => (NSM_ERR_CERT_MISSING, [])
       | Some d => (NSM_OK, d)
       end.

Definition remove_certificate (s : nsm_session) (slot : Z) : Z * nsm_session :=
  if closed s then (NSM_ERR_CLOSED, s)
  else if slot >=? CERTIFICATE_SLOTS then (NSM_ERR_INVALID_SLOT, s)
  else (NSM_OK, set_cert s slot None).

(** One flag byte per slot, [1] when locked. *)
Definition locked_flags (s : nsm_session) (length : Z) : Z * list byte :=
  if closed s then (NSM_ERR_CLOSED, repeat Byte.x00 (Z.to_nat length))
  else (NSM_OK, map (fun i => if (i <? PCR_SLOTS) && pcr_locks s i
                              then Byte.x01 else Byte.x00) (seqZ 0 length)).

Global Instance native : NsmLib nsm_session := {|
  nsm_session_is_closed := closed;
  nsm_session_close := session_close;
  nsm_module_id := fun s => Some (module_id s);
  nsm_describe_pcr := describe_pcr;
  nsm_extend_pcr := extend_pcr;
  nsm_lock_pcr := lock_pcr;
  nsm_lock_range := lock_range;
  nsm_set_certificate := set_certificate;
  nsm_describe_certificate := describe_certificate;
  nsm_remove_certificate := remove_certificate;
  nsm_locked_flags := locked_flags
|}.

End Model.
End NativeModel.

(** ** Readings of the spec and concrete inputs *)

Module SpecReading.

(** Spec 4.4 step 3: an absent optional input contributes no bytes. *)
Definition absent_as_empty (o : option (list byte)) : list byte :=
  match o with None => [] | Some b => b end.

(** Spec 4.2 [first_present]: the first present payload of the slots,
    scanned in ascending order. *)
Fixpoint first_present (cert : Z -> option (list byte)) (slots : list Z)
    : option (list byte) :=
  match slots with
  | [] => None
  | i :: rest => match cert i with Some d => Some d | None => first_present cert rest end
  end.

End SpecReading.

(** ** Invariants of the native session *)

Module Inv.
Import NsmTransport.

(** [P] holds of the session after [m] whenever it held before. *)
Definition keeps {S A} (P : S -> Prop) (m : PyM (transport S) A) : Prop :=
  forall t, P (session t) -> P (session (snd (m t))).

(** The client holds a transport whose session satisfies [P]. *)
Definition cinv {S} (P : S -> Prop) (c : option (transport S)) : Prop :=
  match c with Some t => P (session t) | None => False end.

(** Every exception [m] raises is an [NsmError]. *)
Definition raises_nsm_only {S A} (m : PyM (transport S) A) : Prop :=
  forall t e t', m t = (Raise e, t') -> is_nsm_error (exc_cls e) = true.

End Inv.

Module Concrete.
Import NativeModel.

(** A stand-in for SHA-256 used to run the theorems on concrete inputs. *)
Definition stand_in_sha256 : Sha256 := fun l => firstn 32 (rev l).

(** [b"hello"] *)
Definition hello : list byte := list_byte_of_string "hello".

(** A transport on a fresh session, and a client just opened on it. *)
Definition fresh_transport : NsmTransport.transport nsm_session :=
  NsmTransport.mk_transport (nsm_session_new "i-0123456789abcdef0") ∅.

Definition fresh_client : option (NsmTransport.transport nsm_session) :=
  Some fresh_transport.

(** The native library of [NativeModel] in which PCR slot [bad] has been
    invalidated behind the session's back (the failure of spec 4.4 step 7). *)
Definition invalidated_native `{Sha256} (bad : Z) : NsmLib nsm_session := {|
  nsm_session_is_closed := closed;
  nsm_session_close := session_close;
  nsm_module_id := fun s => Some (module_id s);
  nsm_describe_pcr := fun s i =>
    if i =? bad then (NSM_ERR_INVALID_SLOT, zero_digest) else describe_pcr s i;
  nsm_extend_pcr := extend_pcr;
  nsm_lock_pcr := lock_pcr;
  nsm_lock_range := lock_range;
  nsm_set_certificate := set_certificate;
  nsm_describe_certificate := describe_certificate;
  nsm_remove_certificate := remove_certificate;
  nsm_locked_flags := locked_flags
|}.

End Concrete.

(** ** types.py: the attestation document *)

Module Types.
Import NsmTransport NsmClient.

(** [AttestationDocument]: [pcrs] is a dict keyed by slot, [locked_pcrs] a
    frozenset. *)
Record AttestationDocument := mk_doc {
  doc_module_id : string;
  doc_timestamp : Z;
  doc_digest : list byte;
  doc_pcrs : gmap Z PcrValue;
  doc_certificate : option (list byte);
  doc_cabundle : option (list byte);
  doc_user_data : option (list byte);
  doc_public_key : option (list byte);
  doc_nonce : option (list byte);
  doc_locked_pcrs : gset Z
}.

(** [AttestationDocument.from_payload] on the payload dict of the transport
    (which always holds every key, so [payload.get(k, default)] is
    [payload[k]]; [str], [int] and [bytes] are identities on its values, and
    [_optional_bytes] keeps [None] and the bytes as they are).  The loop over
    [payload["pcrs"].items()] inserts one entry per item, in order. *)
Definition from_payload (p : payload) : AttestationDocument :=
  let locked_slots : gset Z := list_to_set (p_locked_pcrs p) in
  let pcr_map :=
    foldl (fun (m : gmap Z PcrValue) (item : Z * list byte) =>
             let '(slot_int, digest_bytes) := item in
             <[slot_int := mk_PcrValue slot_int digest_bytes
                             (bool_decide (slot_int ∈ locked_slots))]> m)
          ∅ (p_pcrs p) in
  mk_doc (p_module_id p) (p_timestamp p) (p_digest p) pcr_map
    (p_certificate p) (p_cabundle p) (p_user_data p) (p_public_key p) (p_nonce p)
    locked_slots.

(** The dict returned by [to_dict]. *)
Record doc_dict := mk_doc_dict {
  td_module_id : string;
  td_timestamp : Z;
  td_digest : string;
  td_pcrs : gmap Z string;
  td_certificate : option string;
  td_cabundle : option string;
  td_user_data : option string;
  td_public_key : option string;
  td_nonce : option string;
  td_locked_pcrs : list Z
}.

(** One lowercase hexadecimal digit of [bytes.hex()], for [n < 16]. *)
Definition hex_char (n : N) : Ascii.ascii :=
  if (n <? 10)%N then Ascii.ascii_of_N (48 + n) else Ascii.ascii_of_N (87 + n).

(** [bytes.hex()]: two digits per byte, high nibble first. *)
Fixpoint hex (l : list byte) : string :=
  match l with
  | [] => EmptyString
  | b :: rest =>
      String (hex_char (Byte.to_N b / 16)) (String (hex_char (Byte.to_N b mod 16)) (hex rest))
  end.

(** [bytes.decode("latin1")]: byte [n] becomes the character of code [n]. *)
Definition latin1_decode (l : list byte) : string := string_of_list_byte l.

(** [self.x.decode("latin1") if self.x else None] *)
Definition decode_if_truthy (o : option (list byte)) : option string :=
  if truthy o then Some (latin1_decode (default [] o)) else None.

(** [to_dict]; [sorted] of the frozenset sorts its elements ascending. *)
Definition to_dict (d : AttestationDocument) : doc_dict :=
  mk_doc_dict (doc_module_id d) (doc_timestamp d) (hex (doc_digest d))
    ((fun v => hex (pv_digest v)) <$> doc_pcrs d)
    (decode_if_truthy (doc_certificate d)) (decode_if_truthy (doc_cabundle d))
    (decode_if_truthy (doc_user_data d)) (decode_if_truthy (doc_public_key d))
    (decode_if_truthy (doc_nonce d))
    (merge_sort Z.le (elements (doc_locked_pcrs d))).

End Types.

(** ** More of _transport.py: [describe_nsm] and the constructor *)

Module NsmTransportMore.
Import NsmTransport.

Definition DEFAULT_DEVICE_PATH : string := "/var/run/nsm".

(** The dict returned by [describe_nsm]. *)
Record nsm_description := mk_description {
  d_module_id : string;
  d_device_path : string;
  d_pcr_slots : Z;
  d_certificate_slots : Z;
  d_locked_pcrs : list Z;
  d_certificates : Z
}.

(** [lib.nsm_session_new()]: a new session, or [None] for [ffi.NULL]. *)
Class NsmSessionNew (S : Type) := nsm_session_new_ptr : option S.

(** [x or default] for an [Optional[str]]: [None] and [""] are false. *)
Definition str_or (o : option string) (default : string) : string :=
  match o with
  | None | Some EmptyString => default
  | Some p => p
  end.

Section Transport.
Context {S : Type} `{L : NsmLib S} `{Sha256}.

Local Abbreviation M := (PyM (transport S)).

(** [len(self._certificates)] *)
Definition certificate_count : M Z := fun t => (Ok (Z.of_nat (size (certificates t))), t).

(** [describe_nsm]; [device_path] is the transport's [self._device_path],
    set by the constructor and never changed. *)
Definition describe_nsm (device_path : string) : M nsm_description :=
  mid ← module_id;
  flags ← locked_flags;
  let locked := enumerate_set_from 0 flags in
  n ← certificate_count;
  mret (mk_description mid device_path PCR_SLOTS CERTIFICATE_SLOTS locked n).

End Transport.

Section Init.
Context {S : Type} `{NsmSessionNew S}.

(** [str(Path(p))] and [Path(p).exists()]: the file system is a parameter. *)
Variable path_str : string -> string.
Variable path_exists : string -> bool.

(** [NsmTransport(device_path)], with the CFFI extension importable: the new
    transport and its [_device_path]. *)
Definition new_transport (device_path : option string) : res (transport S * string) :=
  let path := path_str (str_or device_path DEFAULT_DEVICE_PATH) in
  if negb (path_exists path) then Raise (Exc NsmDeviceNotFoundError None)
  else match nsm_session_new_ptr with
       | None => Raise (Exc NsmError None)
       | Some s => Ok (mk_transport s ∅, path)
       end.

End Init.
End NsmTransportMore.

(** ** More of client.py *)

Module NsmClientMore.
Import NsmTransport NsmTransportMore NsmClient Types.

Section Client.
Context {S : Type} `{L : NsmLib S} `{Sha256}.

Local Abbreviation CM := (PyM (option (transport S))).

(** The transport's [get_random] (a CFFI buffer of [length] bytes filled by
    the native call) is a parameter. *)
Variable transport_get_random : Z -> PyM (transport S) (list byte).


Definition describe_pcr_raw (slot : Z) : CM pcr_raw :=
  if slot <? 0 then raise (Exc NsmError None) else
  with_transport (NsmTransport.describe_pcr_raw slot).

(** [get_attestation]: the payload read into an [AttestationDocument]. *)
Definition get_attestation_doc (now : Z) (user_data public_key nonce : option (list byte))
    : CM AttestationDocument :=
  payload ← NsmClient.get_attestation now user_data public_key nonce;
  mret (from_payload payload).

End Client.

(** The whole client object: [self._device_path] and [self._transport],
    the latter with the transport's [_device_path]. *)
Record client (S : Type) := mk_client {
  c_device_path : option string;
  c_transport : option (transport S * string)
}.
Arguments mk_client {S} c_device_path c_transport.
Arguments c_device_path {S} c.
Arguments c_transport {S} c.

Section Full.
Context {S : Type} `{L : NsmLib S} `{Sha256}.

(** [self._transport_factory]: [NsmTransport] by default. *)
Variable factory : option string -> res (transport S * string).

Local Abbreviation FM := (PyM (client S)).

(** A method that works on [self._transport] only. *)
Definition lift {A} (m : PyM (option (transport S)) A) : FM A := fun c =>
  match c_transport c with
  | None => let '(r, _) := m None in (r, c)
  | Some (t, p) =>
      let '(r, o) := m (Some t) in
      (r, mk_client (c_device_path c)
            (match o with Some t' => Some (t', p) | None => None end))
  end.

(** The [is_open] property. *)
Definition is_open (c : client S) : bool :=
  match c_transport c with
  | None => false
  | Some (t, _) => negb (nsm_session_is_closed (session t))
  end.

(** The [device_path] property. *)
Definition device_path (c : client S) : string :=
  match c_transport c with
  | None => match c_device_path c with Some p => p | None => DEFAULT_DEVICE_PATH end
  | Some (_, p) => p
  end.

Definition open : FM unit := fun c =>
  let needs_new :=
    match c_transport c with
    | None => true
    | Some (t, _) => nsm_session_is_closed (session t)
    end in
  if needs_new then
    match factory (c_device_path c) with
    | Ok tp => (Ok (), mk_client (c_device_path c) (Some tp))
    | Raise e => (Raise e, c)
    end
  else (Ok (), c).

Definition close : FM unit := lift NsmClient.close.

Definition describe_nsm : FM nsm_description := fun c =>
  match c_transport c with
  | None => (Raise (Exc NsmError None), c)
  | Some (t, p) =>
      let '(r, t') := NsmTransportMore.describe_nsm p t in
      (r, mk_client (c_device_path c) (Some (t', p)))
  end.

(** [with client: body]: [__enter__] opens; [__exit__] closes whether the
    body returned or raised, and returns [None], so an exception of the body
    propagates (an exception of [close] replaces it). *)
Definition with_client {A} (body : FM A) : FM A := fun c =>
  match open c with
  | (Raise e, c1) => (Raise e, c1)
  | (Ok _, c1) =>
      match body c1 with
      | (Ok r, c2) =>
          match close c2 with
          | (Ok _, c3) => (Ok r, c3)
          | (Raise e, c3) => (Raise e, c3)
          end
      | (Raise e, c2) =>
          match close c2 with
          | (Ok _, c3) => (Raise e, c3)
          | (Raise e', c3) => (Raise e', c3)
          end
      end
  end.

End Full.
End NsmClientMore.

Module InvMore.
Import NsmTransport NativeModel.

(** [m] leaves the transport (session and [_certificates]) as it found it,
    whether it returns or raises. *)
Definition read_only {S A} (m : PyM (transport S) A) : Prop :=
  forall t, snd (m t) = t.

(** [self._certificates] has a key exactly for the certificate slots that
    hold a payload, and those are slots [0, 4). *)
Definition cache_matches (t : transport nsm_session) : Prop :=
  (forall k, is_Some (certificates t !! k) <-> is_Some (cert_data (session t) k)) /\
  (forall k, is_Some (cert_data (session t) k) -> 0 <= k < CERTIFICATE_SLOTS).

(** [m] keeps [cache_matches], whether it returns or raises. *)
Definition cache_keeps {A} (m : PyM (transport nsm_session) A) : Prop :=
  forall t, cache_matches t -> cache_matches (snd (m t)).

End InvMore.

Module MoreConcrete.
Import NativeModel NsmTransportMore.

(** [nsm_session_new] of the native model, for module id
    "i-0123456789abcdef0". *)
Definition fresh_session_new : NsmSessionNew nsm_session :=
  Some (nsm_session_new "i-0123456789abcdef0").

(** The native library of [NativeModel] with a session whose module id
    pointer is NULL. *)
Definition anonymous_native `{Sha256} : NsmLib nsm_session := {|
  nsm_session_is_closed := closed;
  nsm_session_close := session_close;
  nsm_module_id := fun _ => None;
  nsm_describe_pcr := describe_pcr;
  nsm_extend_pcr := extend_pcr;
  nsm_lock_pcr := lock_pcr;
  nsm_lock_range := lock_range;
  nsm_set_certificate := set_certificate;
  nsm_describe_certificate := describe_certificate;
  nsm_remove_certificate := remove_certificate;
  nsm_locked_flags := locked_flags
|}.

End MoreConcrete.

(** * Properties *)

(** ** Running monadic code *)

Module PyMFacts.

Lemma bind_ok {T A B} (m : PyM T A) (f : A -> PyM T B) t a t' :
  m t = (Ok a, t') -> mbind f m t = f a t'.
Proof. intros E. unfold mbind, PyM_bind. rewrite E. reflexivity. Qed.
Lemma bind_raise {T A B} (m : PyM T A) (f : A -> PyM T B) t e t' :
  m t = (Raise e, t') -> mbind f m t = (Raise e, t').
Proof. intros E. unfold mbind, PyM_bind. rewrite E. reflexivity. Qed.

Ltac zb1 := rewrite ?Z.geb_leb, ?Z.gtb_ltb;
  first [apply Z.leb_le | apply Z.leb_gt | apply Z.ltb_lt | apply Z.ltb_ge
        | apply Z.eqb_eq | apply Z.eqb_neq];
  unfold PCR_SLOTS, CERTIFICATE_SLOTS in *; lia.
Ltac zb := first [ zb1 | symmetry; zb1 ].

End PyMFacts.

(** ** Invariants are kept by every call *)

Module InvProofs.
Import NsmTransport NsmClient Inv.

Section Keeps.
Context {S : Type} `{L : NsmLib S} `{Sha256}.
Variable P : S -> Prop.
Hypothesis close_P : forall s, P s -> P (snd (nsm_session_close s)).
Hypothesis extend_P : forall s i d, P s -> P (snd (nsm_extend_pcr s i d)).
Hypothesis lock_P : forall s i, P s -> P (snd (nsm_lock_pcr s i)).
Hypothesis range_P : forall s k, P s -> P (snd (nsm_lock_range s k)).
Hypothesis set_cert_P : forall s i d, P s -> P (snd (nsm_set_certificate s i d)).
Hypothesis remove_cert_P : forall s i, P s -> P (snd (nsm_remove_certificate s i)).

Lemma keeps_ret {A} (a : A) : keeps P (mret a).
Proof. intros t Ht. exact Ht. Qed.

Lemma keeps_raise {A} e : keeps P (raise (A := A) e).
Proof. intros t Ht. exact Ht. Qed.

Lemma keeps_bind {A B} (m : PyM (transport S) A) (f : A -> PyM (transport S) B) :
  keeps P m -> (forall a, keeps P (f a)) -> keeps P (mbind f m).
Proof.
  intros Hm Hf t Ht. unfold mbind, PyM_bind.
  specialize (Hm t Ht). destruct (m t) as [[a|e] t'] eqn:E; simpl in *.
  - apply (Hf a). exact Hm.
  - exact Hm.
Qed.

Lemma keeps_call_ro {A} (f : S -> A) : keeps P (call_ro f).
Proof. intros t Ht. exact Ht. Qed.

Lemma keeps_call {A} (f : S -> A * S) :
  (forall s, P s -> P (snd (f s))) -> keeps P (call f).
Proof.
  intros Hf t Ht. unfold call. specialize (Hf _ Ht).
  destruct (f (session t)) as [a s']. exact Hf.
Qed.

Lemma keeps_update_certificates g : keeps P (update_certificates g).
Proof. intros t Ht. exact Ht. Qed.

Lemma keeps_raise_error code context : keeps P (raise_error code context).
Proof. intros t Ht. unfold raise_error. destruct (raise_error_exc _ _); exact Ht. Qed.

Lemma keeps_ffi z : keeps P (ffi_uint32 z).
Proof. intros t Ht. unfold ffi_uint32. destruct (_ && _); exact Ht. Qed.

Lemma keeps_py_map {A B} (f : A -> PyM (transport S) B) xs :
  (forall x, keeps P (f x)) -> keeps P (py_map f xs).
Proof.
  intros Hf. induction xs as [|x xs IH]; simpl.
  - apply keeps_ret.
  - apply keeps_bind; [apply Hf|]. intros b.
    apply keeps_bind; [exact IH|]. intros bs. apply keeps_ret.
Qed.

Lemma keeps_try {A} (body : PyM (transport S) A) h :
  keeps P body -> (forall e, keeps P (h e)) -> keeps P (try_except_nsm body h).
Proof.
  intros Hb Hh t Ht. unfold try_except_nsm. specialize (Hb t Ht).
  destruct (body t) as [[a|e] t'] eqn:E; simpl in *; [exact Hb|].
  destruct (is_nsm_error _); simpl; [apply (Hh e)|]; exact Hb.
Qed.

Lemma keeps_extend_call slot data :
  keeps P (call (fun s => let '(code, out, s') := nsm_extend_pcr s slot data in
                          ((code, out), s'))).
Proof.
  apply keeps_call. intros s Hs. pose proof (extend_P s slot data Hs) as He.
  destruct (nsm_extend_pcr s slot data) as [[c o] s']. exact He.
Qed.

Ltac keeps_tac :=
  repeat first
    [ apply keeps_ret | apply keeps_raise | apply keeps_call_ro
    | apply keeps_raise_error | apply keeps_ffi | apply keeps_update_certificates
    | apply keeps_extend_call
    | apply keeps_call; intros ? ?; simpl;
      first [ apply close_P | apply lock_P | apply range_P | apply set_cert_P
            | apply remove_cert_P ]; assumption
    | apply keeps_bind; [| intros ?]
    | apply keeps_try; [| intros ?]
    | apply keeps_py_map; intros ?
    | match goal with
      | |- keeps _ (let '(_, _) := ?x in _) => destruct x
      | |- keeps _ (if ?b then _ else _) => destruct b
      | |- keeps _ (match ?x with _ => _ end) => destruct x
      end ].

Lemma with_transport_snd {A} (m : PyM (transport S) A) t :
  snd (with_transport m (Some t)) = Some (snd (m t)).
Proof. unfold with_transport. destruct (m t); reflexivity. Qed.

Lemma cinv_run_op o c : cinv P c -> cinv P (run_op o c).
Proof.
  destruct c as [t|]; [|contradiction]. intros Ht.
  destruct o; cbn [run_op];
    unfold NsmClient.describe_pcr, NsmClient.extend_pcr, NsmClient.lock_pcr,
      NsmClient.lock_pcrs, NsmClient.set_certificate, NsmClient.describe_certificate,
      NsmClient.remove_certificate, NsmClient.get_attestation, NsmClient.close;
    repeat match goal with
      | |- cinv P (snd ((if ?b then _ else _) _)) => destruct b
      | |- cinv P (snd ((match ?x with _ => _ end) _)) => destruct x
      | |- cinv P (snd (raise _ _)) => exact Ht
      | |- cinv P (snd (with_transport ?m (Some t))) =>
          rewrite with_transport_snd; cbn [cinv]; revert Ht; generalize t;
          change (keeps P m)
      end;
    unfold NsmTransport.extend_pcr, NsmTransport.lock_pcr, NsmTransport.lock_pcrs,
      NsmTransport.set_certificate, NsmTransport.describe_certificate,
      NsmTransport.remove_certificate, NsmTransport.get_attestation, attestation_snapshot,
      is_closed, module_id, first_certificate, NsmTransport.describe_pcr,
      describe_pcr_raw, slot_locked, locked_flags, NsmTransport.close;
    keeps_tac.
Qed.

Lemma cinv_run_ops ops c : cinv P c -> cinv P (run_ops ops c).
Proof.
  revert c. induction ops as [|o ops IH]; intros c Hc; simpl; [exact Hc|].
  apply IH, cinv_run_op, Hc.
Qed.

End Keeps.
End InvProofs.

(** ** Runs of the code on the modelled native session *)

Module ModelProofs.
Import NsmTransport NativeModel PyMFacts.

Section Open.
Context `{Sha256}.
Lemma ffi_ok (t : transport nsm_session) z : 0 <= z < 2 ^ 32 -> ffi_uint32 z t = (Ok z, t).
Proof. intros Hz. unfold ffi_uint32. replace ((0 <=? z) && (z <? 2 ^ 32)) with true; [reflexivity|].
  symmetry. apply andb_true_intro. split; [apply Z.leb_le | apply Z.ltb_lt]; lia. Qed.
Lemma raise_error_ok (t : transport nsm_session) ctx : raise_error NSM_OK ctx t = (Ok (), t).
Proof. reflexivity. Qed.
Lemma nth_map_seqZ {A} (f : Z -> A) n i d : 0 <= i < n -> nth (Z.to_nat i) (map f (seqZ 0 n)) d = f i.
Proof.
  intros Hi. rewrite nth_lookup. change (map f (seqZ 0 n)) with (f <$> seqZ 0 n).
  rewrite list_lookup_fmap, lookup_seqZ_lt by lia. simpl. f_equal. lia.
Qed.
Lemma locked_flags_open (t : transport nsm_session) : closed (session t) = false ->
  NsmTransport.locked_flags t =
  (Ok (map (fun i => byte_to_Z (if (i <? PCR_SLOTS) && pcr_locks (session t) i then Byte.x01 else Byte.x00)) (seqZ 0 PCR_SLOTS)), t).
Proof.
  intros Hc. unfold NsmTransport.locked_flags.
  erewrite bind_ok by reflexivity. cbn [nsm_locked_flags native]. unfold NativeModel.locked_flags. rewrite Hc.
  cbv beta iota. erewrite bind_ok by reflexivity. rewrite map_map. reflexivity.
Qed.
Lemma slot_locked_open (t : transport nsm_session) i : closed (session t) = false -> 0 <= i < 32 ->
  slot_locked i t = (Ok (pcr_locks (session t) i), t).
Proof.
  intros Hc Hi. unfold slot_locked. erewrite bind_ok by (apply locked_flags_open; exact Hc).
  rewrite length_map, length_seqZ.
  replace ((i <? 0) || (i >=? Z.of_nat (Z.to_nat PCR_SLOTS))) with false.
  2:{ symmetry. apply orb_false_intro; zb. }
  rewrite nth_map_seqZ by (unfold PCR_SLOTS; lia).
  replace (i <? PCR_SLOTS) with true by zb.
  destruct (pcr_locks (session t) i); reflexivity.
Qed.
Lemma describe_pcr_raw_open (t : transport nsm_session) i :
  closed (session t) = false -> 0 <= i < 32 ->
  describe_pcr_raw i t = (Ok (mk_pcr_raw i (pcrs (session t) i) (pcr_locks (session t) i)), t).
Proof.
  intros Hc Hi. unfold describe_pcr_raw.
  erewrite bind_ok by (apply ffi_ok; lia).
  erewrite bind_ok by reflexivity.
  cbn [nsm_describe_pcr native]. unfold NativeModel.describe_pcr. rewrite Hc.
  replace (i >=? PCR_SLOTS) with false by zb.
  cbv beta iota.
  erewrite bind_ok by reflexivity.
  erewrite bind_ok by (apply slot_locked_open; assumption). reflexivity.
Qed.

Lemma describe_pcr_open (t : transport nsm_session) i :
  closed (session t) = false -> 0 <= i < 32 ->
  NsmTransport.describe_pcr i t = (Ok (pcrs (session t) i), t).
Proof.
  intros Hc Hi. unfold NsmTransport.describe_pcr.
  erewrite bind_ok by (apply describe_pcr_raw_open; assumption). reflexivity.
Qed.

Lemma py_map_describe_open (t : transport nsm_session) (l : list Z) :
  closed (session t) = false -> (forall i, i ∈ l -> 0 <= i < 32) ->
  py_map (fun index => d ← NsmTransport.describe_pcr index; mret (index, d)) l t
  = (Ok (map (fun i => (i, pcrs (session t) i)) l), t).
Proof.
  intros Hc. induction l as [|i l IH]; intros Hl; [reflexivity|]. simpl.
  erewrite bind_ok.
  2:{ erewrite bind_ok by (apply describe_pcr_open; [exact Hc | apply Hl; set_solver]).
      reflexivity. }
  erewrite bind_ok by (apply IH; intros j Hj; apply Hl; set_solver).
  reflexivity.
Qed.

Lemma attestation_snapshot_open (t : transport nsm_session) u p n :
  closed (session t) = false ->
  attestation_snapshot u p n t =
  (Ok (map (fun i => (i, pcrs (session t) i)) (seqZ 0 PCR_SLOTS),
       attestation_digest (map (pcrs (session t)) (seqZ 0 PCR_SLOTS)) u p n,
       enumerate_set_from 0
         (map (fun i => byte_to_Z (if (i <? PCR_SLOTS) && pcr_locks (session t) i
                                   then Byte.x01 else Byte.x00)) (seqZ 0 PCR_SLOTS))), t).
Proof.
  intros Hc. unfold attestation_snapshot.
  erewrite bind_ok.
  2:{ apply py_map_describe_open; [exact Hc|]. intros i Hi.
      apply elem_of_seqZ in Hi. unfold PCR_SLOTS in Hi. lia. }
  erewrite bind_ok by (apply locked_flags_open; exact Hc).
  rewrite map_map. reflexivity.
Qed.

Lemma first_certificate_from_open (t : transport nsm_session) (l : list Z) :
  closed (session t) = false -> (forall i, i ∈ l -> 0 <= i < 4) ->
  first_certificate_from l t = (Ok (SpecReading.first_present (cert_data (session t)) l), t).
Proof.
  intros Hc. induction l as [|i l IH]; intros Hl; [reflexivity|]. simpl.
  erewrite bind_ok by reflexivity.
  cbn [nsm_describe_certificate native]. unfold NativeModel.describe_certificate.
  rewrite Hc.
  replace (i >=? CERTIFICATE_SLOTS) with false
    by (assert (0 <= i < 4) by (apply Hl; set_solver); zb).
  destruct (cert_data (session t) i) as [d|]; [reflexivity|].
  cbv beta iota. apply IH. intros j Hj. apply Hl. set_solver.
Qed.

Lemma first_certificate_open (t : transport nsm_session) :
  closed (session t) = false ->
  first_certificate t
  = (Ok (SpecReading.first_present (cert_data (session t)) (seqZ 0 CERTIFICATE_SLOTS)), t).
Proof.
  intros Hc. apply first_certificate_from_open; [exact Hc|].
  intros i Hi. apply elem_of_seqZ in Hi. unfold CERTIFICATE_SLOTS in Hi. lia.
Qed.

Lemma get_attestation_open (t : transport nsm_session) now u p n :
  closed (session t) = false ->
  NsmTransport.get_attestation now u p n t =
  (Ok (mk_payload (NativeModel.module_id (session t)) now
         (attestation_digest (map (pcrs (session t)) (seqZ 0 PCR_SLOTS)) u p n)
         (map (fun i => (i, pcrs (session t) i)) (seqZ 0 PCR_SLOTS))
         (enumerate_set_from 0
            (map (fun i => byte_to_Z (if (i <? PCR_SLOTS) && pcr_locks (session t) i
                                      then Byte.x01 else Byte.x00)) (seqZ 0 PCR_SLOTS)))
         (SpecReading.first_present (cert_data (session t)) (seqZ 0 CERTIFICATE_SLOTS))
         None u p n), t).
Proof.
  intros Hc. unfold NsmTransport.get_attestation.
  erewrite bind_ok by reflexivity. cbn [nsm_session_is_closed native]. rewrite Hc.
  erewrite bind_ok.
  2:{ unfold try_except_nsm. rewrite attestation_snapshot_open by exact Hc. reflexivity. }
  cbv beta iota.
  erewrite bind_ok by reflexivity.
  erewrite bind_ok by (apply first_certificate_open; exact Hc).
  reflexivity.
Qed.

Lemma foldl_hasher_update (vals : list (list byte)) (h : hasher) :
  foldl hasher_update h vals = h ++ concat vals.
Proof.
  revert h. induction vals as [|v vals IH]; intros h; simpl.
  - rewrite app_nil_r. reflexivity.
  - rewrite IH. unfold hasher_update. rewrite app_assoc. reflexivity.
Qed.

Lemma truthy_absent (o : option (list byte)) (h : hasher) :
  (if truthy o then hasher_update h (default [] o) else h)
  = h ++ SpecReading.absent_as_empty o.
Proof.
  destruct o as [[|b l]|]; simpl; rewrite ?app_nil_r; reflexivity.
Qed.

Lemma attestation_digest_concat (vals : list (list byte)) u p n :
  attestation_digest vals u p n
  = sha256 (concat vals ++ SpecReading.absent_as_empty u
            ++ SpecReading.absent_as_empty p ++ SpecReading.absent_as_empty n).
Proof.
  unfold attestation_digest. rewrite foldl_hasher_update, !truthy_absent.
  simpl. rewrite !app_assoc. reflexivity.
Qed.

Lemma call_eq {A} (f : nsm_session -> A * nsm_session) s certs a s' :
  f s = (a, s') -> call f (mk_transport s certs) = (Ok a, mk_transport s' certs).
Proof. intros E. unfold call. simpl. rewrite E. reflexivity. Qed.

Lemma raise_error_raise (t : transport nsm_session) code ctx e :
  raise_error_exc code ctx = Some e -> raise_error code ctx t = (Raise e, t).
Proof. intros E. unfold raise_error. rewrite E. reflexivity. Qed.

Lemma ffi_overflow (t : transport nsm_session) z :
  ~ (0 <= z < 2 ^ 32) -> ffi_uint32 z t = (Raise (Exc OverflowError None), t).
Proof.
  intros Hz. unfold ffi_uint32.
  destruct (0 <=? z) eqn:E1; destruct (z <? 2 ^ 32) eqn:E2; try reflexivity.
  apply Z.leb_le in E1. apply Z.ltb_lt in E2. lia.
Qed.

Lemma extend_pcr_open s certs slot data :
  closed s = false -> 0 <= slot < 32 -> pcr_locks s slot = false -> data <> [] ->
  NsmTransport.extend_pcr slot data (mk_transport s certs)
  = (Ok (sha256 (pcrs s slot ++ data)),
     mk_transport (set_pcr s slot (sha256 (pcrs s slot ++ data))) certs).
Proof.
  intros Hc Hs Hl Hd. unfold NsmTransport.extend_pcr.
  erewrite bind_ok by (apply ffi_ok; lia).
  erewrite bind_ok.
  2:{ apply call_eq. cbn [nsm_extend_pcr native]. unfold NativeModel.extend_pcr.
      rewrite Hc, Hl. replace (slot >=? PCR_SLOTS) with false by zb.
      rewrite bool_decide_false by exact Hd. reflexivity. }
  reflexivity.
Qed.

Lemma set_pcr_same s slot d : pcrs (set_pcr s slot d) slot = d.
Proof. simpl. rewrite Z.eqb_refl. reflexivity. Qed.

End Open.

(** Calls on a closed session. *)
Section Closed.
Context `{Sha256}.

Lemma describe_pcr_raw_closed s certs slot :
  closed s = true -> 0 <= slot < 2 ^ 32 ->
  describe_pcr_raw slot (mk_transport s certs)
  = (Raise (Exc NsmSessionClosedError None), mk_transport s certs).
Proof.
  intros Hc Hs. unfold describe_pcr_raw.
  erewrite bind_ok by (apply ffi_ok; lia).
  erewrite bind_ok by reflexivity.
  cbn [nsm_describe_pcr native session]. unfold NativeModel.describe_pcr. rewrite Hc.
  cbv beta iota. erewrite bind_raise by (apply raise_error_raise; reflexivity).
  reflexivity.
Qed.

Lemma extend_pcr_closed s certs slot data :
  closed s = true -> 0 <= slot < 2 ^ 32 ->
  NsmTransport.extend_pcr slot data (mk_transport s certs)
  = (Raise (Exc NsmSessionClosedError None), mk_transport s certs).
Proof.
  intros Hc Hs. unfold NsmTransport.extend_pcr.
  erewrite bind_ok by (apply ffi_ok; lia).
  erewrite bind_ok.
  2:{ apply call_eq. cbn [nsm_extend_pcr native]. unfold NativeModel.extend_pcr.
      rewrite Hc. reflexivity. }
  cbv beta iota. erewrite bind_raise by (apply raise_error_raise; reflexivity).
  reflexivity.
Qed.

Lemma set_certificate_closed s certs slot cert :
  closed s = true -> 0 <= slot < 2 ^ 32 ->
  NsmTransport.set_certificate slot cert (mk_transport s certs)
  = (Raise (Exc NsmSessionClosedError None), mk_transport s certs).
Proof.
  intros Hc Hs. unfold NsmTransport.set_certificate.
  erewrite bind_ok by (apply ffi_ok; lia).
  erewrite bind_ok.
  2:{ apply call_eq. cbn [nsm_set_certificate native]. unfold NativeModel.set_certificate.
      rewrite Hc. reflexivity. }
  erewrite bind_raise by (apply raise_error_raise; reflexivity).
  reflexivity.
Qed.

Lemma get_attestation_closed s certs now u p n :
  closed s = true ->
  NsmTransport.get_attestation now u p n (mk_transport s certs)
  = (Raise (Exc NsmSessionClosedError None), mk_transport s certs).
Proof.
  intros Hc. unfold NsmTransport.get_attestation.
  erewrite bind_ok by reflexivity. cbn [nsm_session_is_closed native session].
  rewrite Hc. reflexivity.
Qed.

Lemma transport_close_closed s certs :
  closed s = true -> NsmTransport.close (mk_transport s certs) = (Ok (), mk_transport s certs).
Proof.
  intros Hc. unfold NsmTransport.close.
  erewrite bind_ok.
  2:{ apply call_eq. cbn [nsm_session_close native]. unfold session_close.
      rewrite Hc. reflexivity. }
  reflexivity.
Qed.

Lemma transport_close_open s certs :
  closed s = false ->
  NsmTransport.close (mk_transport s certs) = (Ok (), mk_transport (set_closed s) certs).
Proof.
  intros Hc. unfold NsmTransport.close.
  erewrite bind_ok.
  2:{ apply call_eq. cbn [nsm_session_close native]. unfold session_close.
      rewrite Hc. reflexivity. }
  reflexivity.
Qed.

End Closed.

(** Locking, the client's checks, and the invariants of the native session. *)
Section Client.
Context `{Sha256}.

Lemma transport_lock_pcr s certs slot :
  NsmTransport.lock_pcr slot (mk_transport s certs) =
  if decide (0 <= slot < 2 ^ 32) then
    if closed s then (Raise (Exc NsmSessionClosedError None), mk_transport s certs)
    else if slot >=? PCR_SLOTS then (Raise (Exc NsmInvalidPcrError None), mk_transport s certs)
    else (Ok true, mk_transport (set_locks s (fun i => (i =? slot) || pcr_locks s i)) certs)
  else (Raise (Exc OverflowError None), mk_transport s certs).
Proof.
  unfold NsmTransport.lock_pcr. destruct (decide (0 <= slot < 2 ^ 32)) as [Hs|Hs].
  - erewrite bind_ok by (apply ffi_ok; lia).
    destruct (closed s) eqn:Hc; [|destruct (slot >=? PCR_SLOTS) eqn:Er];
      (erewrite bind_ok by (apply call_eq; cbn [nsm_lock_pcr native];
                            unfold NativeModel.lock_pcr; rewrite ?Hc, ?Er; reflexivity));
      try (erewrite bind_raise by (apply raise_error_raise; reflexivity));
      reflexivity.
  - erewrite bind_raise by (apply ffi_overflow; exact Hs). reflexivity.
Qed.

Lemma client_lock_pcr_ok s certs slot r c1 :
  NsmClient.lock_pcr slot (Some (mk_transport s certs)) = (Ok r, c1) ->
  0 <= slot < 32 /\ closed s = false /\
  c1 = Some (mk_transport (set_locks s (fun i => (i =? slot) || pcr_locks s i)) certs).
Proof.
  unfold NsmClient.lock_pcr. destruct (slot <? 0) eqn:Eneg; [discriminate|].
  unfold NsmClient.with_transport. rewrite transport_lock_pcr.
  destruct (decide (0 <= slot < 2 ^ 32)); [|discriminate].
  destruct (closed s) eqn:Hc; [discriminate|].
  destruct (slot >=? PCR_SLOTS) eqn:Er; [discriminate|].
  intros E. inversion E. subst. apply Z.ltb_ge in Eneg.
  rewrite Z.geb_leb in Er. apply Z.leb_gt in Er. unfold PCR_SLOTS in Er.
  split; [lia|]. split; reflexivity.
Qed.

Lemma lock_pcrs_open s certs k :
  closed s = false -> 0 <= k < 2 ^ 32 ->
  NsmTransport.lock_pcrs k (mk_transport s certs)
  = (Ok true, mk_transport (set_locks s (fun i => (i <? k) || pcr_locks s i)) certs).
Proof.
  intros Hc Hk. unfold NsmTransport.lock_pcrs.
  erewrite bind_ok by (apply ffi_ok; lia).
  erewrite bind_ok.
  2:{ apply call_eq. cbn [nsm_lock_range native]. unfold lock_range.
      rewrite Hc. reflexivity. }
  reflexivity.
Qed.

Lemma client_extend_open s certs slot data :
  closed s = false -> 0 <= slot < 32 -> pcr_locks s slot = false -> data <> [] ->
  NsmClient.extend_pcr slot data (Some (mk_transport s certs))
  = (Ok (NsmClient.mk_PcrValue slot (sha256 (pcrs s slot ++ data)) false),
     Some (mk_transport (set_pcr s slot (sha256 (pcrs s slot ++ data))) certs)).
Proof.
  intros Hc Hs Hl Hd. unfold NsmClient.extend_pcr.
  replace (slot <? 0) with false by zb.
  destruct data as [|b rest]; [congruence|].
  unfold NsmClient.with_transport.
  erewrite bind_ok by (apply extend_pcr_open; assumption).
  erewrite bind_ok by (apply describe_pcr_raw_open; simpl; assumption).
  simpl. rewrite Hl. reflexivity.
Qed.

Lemma client_describe_open s certs slot :
  closed s = false -> 0 <= slot < 32 ->
  NsmClient.describe_pcr slot (Some (mk_transport s certs))
  = (Ok (NsmClient.mk_PcrValue slot (pcrs s slot) (pcr_locks s slot)),
     Some (mk_transport s certs)).
Proof.
  intros Hc Hs. unfold NsmClient.describe_pcr.
  replace (slot <? 0) with false by zb. unfold NsmClient.with_transport.
  erewrite bind_ok by (apply describe_pcr_raw_open; simpl; assumption).
  reflexivity.
Qed.

(** A native status code other than [NSM_OK] makes [extend_pcr] raise and
    keeps the session. *)
Lemma client_extend_native_error s certs slot data code e :
  0 <= slot < 2 ^ 32 -> data <> [] ->
  NativeModel.extend_pcr s slot data = (code, zero_digest, s) ->
  raise_error_exc code "pcr" = Some e ->
  NsmClient.extend_pcr slot data (Some (mk_transport s certs))
  = (Raise e, Some (mk_transport s certs)).
Proof.
  intros Hs Hd En Ee. unfold NsmClient.extend_pcr.
  replace (slot <? 0) with false by zb.
  destruct data as [|b rest]; [congruence|].
  unfold NsmClient.with_transport.
  erewrite bind_raise; [reflexivity|].
  unfold NsmTransport.extend_pcr.
  erewrite bind_ok by (apply ffi_ok; lia).
  erewrite bind_ok.
  2:{ apply call_eq. cbn [nsm_extend_pcr native]. rewrite En. reflexivity. }
  cbv beta iota. erewrite bind_raise by (apply raise_error_raise; exact Ee).
  reflexivity.
Qed.

Lemma client_describe_native_error s certs slot code e :
  0 <= slot < 2 ^ 32 ->
  NativeModel.describe_pcr s slot = (code, zero_digest) ->
  raise_error_exc code "pcr" = Some e ->
  NsmClient.describe_pcr slot (Some (mk_transport s certs))
  = (Raise e, Some (mk_transport s certs)).
Proof.
  intros Hs En Ee. unfold NsmClient.describe_pcr.
  replace (slot <? 0) with false by zb.
  unfold NsmClient.with_transport.
  erewrite bind_raise; [reflexivity|].
  unfold describe_pcr_raw.
  erewrite bind_ok by (apply ffi_ok; lia).
  erewrite bind_ok by reflexivity.
  cbn [nsm_describe_pcr native session]. rewrite En. cbv beta iota.
  erewrite bind_raise by (apply raise_error_raise; exact Ee).
  reflexivity.
Qed.

Lemma runs_keep_lock slot ops c :
  Inv.cinv (fun s => pcr_locks s slot = true) c ->
  Inv.cinv (fun s => pcr_locks s slot = true) (NsmClient.run_ops ops c).
Proof.
  apply InvProofs.cinv_run_ops; intros s0; cbn;
    unfold session_close, NativeModel.extend_pcr, NativeModel.lock_pcr, lock_range,
      NativeModel.set_certificate, NativeModel.remove_certificate;
    intros; repeat (case_match; simpl in *);
    repeat match goal with
      | Hl : pcr_locks ?s ?x = true |- context [pcr_locks ?s ?x] => rewrite Hl
      end;
    rewrite ?orb_true_r; auto.
Qed.

Lemma runs_keep_nonempty ops c :
  Inv.cinv (fun s => forall i d, cert_data s i = Some d -> d <> []) c ->
  Inv.cinv (fun s => forall i d, cert_data s i = Some d -> d <> [])
    (NsmClient.run_ops ops c).
Proof.
  apply InvProofs.cinv_run_ops; intros s0; cbn;
    unfold session_close, NativeModel.extend_pcr, NativeModel.lock_pcr, lock_range,
      NativeModel.set_certificate, NativeModel.remove_certificate;
    intros; repeat (case_match; simpl in *); eauto;
    match goal with E : Some _ = Some _ |- _ => inversion E; subst end;
    match goal with Hb : bool_decide _ = false |- _ => apply bool_decide_eq_false in Hb end;
    assumption.
Qed.

End Client.
End ModelProofs.

(** ** The [try] block of [get_attestation] raises only [NsmError]s *)

Module RaiseProofs.
Import NsmTransport Inv PyMFacts.

Section Raises.
Context {S : Type} `{L : NsmLib S} `{Sha256}.

Lemma rn_ret {A} (a : A) : raises_nsm_only (S := S) (mret a).
Proof. intros t e t' E. discriminate. Qed.

Lemma rn_bind {A B} (m : PyM (transport S) A) (f : A -> PyM (transport S) B) :
  raises_nsm_only m -> (forall a, raises_nsm_only (f a)) -> raises_nsm_only (mbind f m).
Proof.
  intros Hm Hf t e t'. unfold mbind, PyM_bind.
  destruct (m t) as [[a|e0] t1] eqn:E.
  - apply Hf.
  - intros E'. inversion E'. subst. exact (Hm _ _ _ E).
Qed.

Lemma rn_call_ro {A} (f : S -> A) : raises_nsm_only (call_ro f).
Proof. intros t e t' E. discriminate. Qed.

Lemma raise_error_exc_nsm code context e :
  raise_error_exc code context = Some e -> is_nsm_error (exc_cls e) = true.
Proof.
  unfold raise_error_exc. repeat case_match; intros E; inversion E; reflexivity.
Qed.

Lemma rn_raise_error code context : raises_nsm_only (S := S) (raise_error code context).
Proof.
  intros t e t'. unfold raise_error.
  destruct (raise_error_exc code context) as [e0|] eqn:E; [|discriminate].
  intros E'. inversion E'. subst. exact (raise_error_exc_nsm _ _ _ E).
Qed.

Lemma rn_ffi z : 0 <= z < 2 ^ 32 -> raises_nsm_only (S := S) (ffi_uint32 z).
Proof.
  intros Hz t e t'. unfold ffi_uint32.
  replace ((0 <=? z) && (z <? 2 ^ 32)) with true; [discriminate|].
  symmetry. apply andb_true_intro. split; [apply Z.leb_le | apply Z.ltb_lt]; lia.
Qed.

Lemma rn_py_map {A B} (f : A -> PyM (transport S) B) xs :
  (forall x, x ∈ xs -> raises_nsm_only (f x)) -> raises_nsm_only (py_map f xs).
Proof.
  induction xs as [|x xs IH]; intros Hf; simpl; [apply rn_ret|].
  apply rn_bind; [apply Hf; set_solver|]. intros b.
  apply rn_bind; [apply IH; intros y Hy; apply Hf; set_solver|]. intros bs.
  apply rn_ret.
Qed.

Lemma rn_locked_flags : raises_nsm_only (S := S) locked_flags.
Proof.
  unfold locked_flags. apply rn_bind; [apply rn_call_ro|]. intros [code buffer].
  apply rn_bind; [apply rn_raise_error|]. intros _. apply rn_ret.
Qed.

Lemma rn_describe_pcr slot :
  0 <= slot < 2 ^ 32 -> raises_nsm_only (S := S) (NsmTransport.describe_pcr slot).
Proof.
  intros Hs. unfold NsmTransport.describe_pcr, describe_pcr_raw.
  apply rn_bind; [|intros; apply rn_ret].
  apply rn_bind; [apply rn_ffi; exact Hs|]. intros slot32.
  apply rn_bind; [apply rn_call_ro|]. intros [code buffer].
  apply rn_bind; [apply rn_raise_error|]. intros _.
  apply rn_bind; [|intros; apply rn_ret].
  unfold slot_locked. apply rn_bind; [apply rn_locked_flags|]. intros flags.
  case_match; [intros t e t' E; inversion E; reflexivity | apply rn_ret].
Qed.

Lemma rn_attestation_snapshot u p n :
  raises_nsm_only (S := S) (attestation_snapshot u p n).
Proof.
  unfold attestation_snapshot.
  apply rn_bind.
  - apply rn_py_map. intros i Hi. apply elem_of_seqZ in Hi. unfold PCR_SLOTS in Hi.
    apply rn_bind; [apply rn_describe_pcr; lia|]. intros; apply rn_ret.
  - intros pcrs. apply rn_bind; [apply rn_locked_flags|]. intros; apply rn_ret.
Qed.

End Raises.
End RaiseProofs.

(** * The claims *)

Module Claims.
Import NsmTransport NativeModel SpecReading Concrete PyMFacts ModelProofs.

Section Claims.
Context `{Sha256}.

(** C1: on an open session, [get_attestation] succeeds without changing the
    session, and the digest of its document is SHA-256 of the 32 PCR digests
    in ascending slot order, then [user_data], [public_key] and [nonce], an
    absent input contributing no bytes; so [user_data=None] and
    [user_data=b""] give the same digest. *)
Theorem get_attestation_digest_composition (t : transport nsm_session) now u p n :
  closed (session t) = false ->
  (exists pl, NsmTransport.get_attestation now u p n t = (Ok pl, t) /\
     p_digest pl = sha256 (concat (map (pcrs (session t)) (seqZ 0 PCR_SLOTS))
                           ++ absent_as_empty u ++ absent_as_empty p
                           ++ absent_as_empty n)) /\
  (exists pl1 pl2,
     NsmTransport.get_attestation now None p n t = (Ok pl1, t) /\
     NsmTransport.get_attestation now (Some []) p n t = (Ok pl2, t) /\
     p_digest pl1 = p_digest pl2).
Proof.
  intros Hc. split.
  - eexists. split; [apply get_attestation_open; exact Hc|].
    simpl. apply attestation_digest_concat.
  - do 2 eexists. split; [apply get_attestation_open; exact Hc|].
    split; [apply get_attestation_open; exact Hc|].
    simpl. rewrite !attestation_digest_concat. reflexivity.
Qed.

(** C2: on an open session, for a slot in [0,32) that is not locked and
    non-empty data, [extend_pcr] returns SHA256(old digest || data) and
    stores it in the slot; on a fresh session, after [extend_pcr(0, b"hello")]
    slot 0 holds SHA256(32 zero bytes || b"hello"). *)
Theorem extend_pcr_hash_chain (s : nsm_session) certs slot data :
  closed s = false -> 0 <= slot < 32 -> pcr_locks s slot = false -> data <> [] ->
  NsmClient.extend_pcr slot data (Some (mk_transport s certs))
  = (Ok (NsmClient.mk_PcrValue slot (sha256 (pcrs s slot ++ data)) false),
     Some (mk_transport (set_pcr s slot (sha256 (pcrs s slot ++ data))) certs)) /\
  pcrs (set_pcr s slot (sha256 (pcrs s slot ++ data))) slot
  = sha256 (pcrs s slot ++ data) /\
  (exists c,
     NsmClient.extend_pcr 0 hello fresh_client
     = (Ok (NsmClient.mk_PcrValue 0 (sha256 (repeat Byte.x00 32 ++ hello)) false), c) /\
     NsmClient.describe_pcr 0 c
     = (Ok (NsmClient.mk_PcrValue 0 (sha256 (repeat Byte.x00 32 ++ hello)) false), c)).
Proof.
  intros Hc Hs Hl Hd. split; [apply client_extend_open; assumption|].
  split; [apply set_pcr_same|].
  eexists. split.
  - apply (client_extend_open (nsm_session_new "i-0123456789abcdef0") ∅ 0 hello);
      try reflexivity; try lia. unfold hello. simpl. discriminate.
  - rewrite client_describe_open by (reflexivity || lia).
    rewrite set_pcr_same. reflexivity.
Qed.

(** C3 (amended): once [lock_pcr(slot)] succeeds, the slot's lock flag stays
    set whatever calls follow in the session; while the session is open,
    [extend_pcr(slot, data)] with non-empty data raises [NsmPcrLockedError]
    and changes nothing, and [describe_pcr(slot)] reports [locked=True]. *)
Theorem lock_pcr_permanent (s : nsm_session) certs slot r c1 ops :
  NsmClient.lock_pcr slot (Some (mk_transport s certs)) = (Ok r, c1) ->
  exists t2, NsmClient.run_ops ops c1 = Some t2 /\
    pcr_locks (session t2) slot = true /\
    (closed (session t2) = false ->
     (forall data, data <> [] ->
        NsmClient.extend_pcr slot data (Some t2)
        = (Raise (Exc NsmPcrLockedError None), Some t2)) /\
     NsmClient.describe_pcr slot (Some t2)
     = (Ok (NsmClient.mk_PcrValue slot (pcrs (session t2) slot) true), Some t2)).
Proof.
  intros E. apply client_lock_pcr_ok in E as (Hs & Hc & ->).
  pose proof (runs_keep_lock slot ops
     (Some (mk_transport (set_locks s (fun i => (i =? slot) || pcr_locks s i)) certs)))
    as Hk.
  simpl in Hk. rewrite Z.eqb_refl in Hk. specialize (Hk eq_refl).
  destruct (NsmClient.run_ops ops _) as [[s2 certs2]|]; [|contradiction].
  simpl in Hk. exists (mk_transport s2 certs2). split; [reflexivity|].
  split; [exact Hk|]. simpl. intros Hc2. split.
  - intros data Hd. apply client_extend_native_error with (code := NSM_ERR_LOCKED);
      [lia | exact Hd | | reflexivity].
    unfold NativeModel.extend_pcr. rewrite Hc2, Hk, bool_decide_false by exact Hd.
    replace (slot >=? PCR_SLOTS) with false by zb. reflexivity.
  - rewrite client_describe_open by (assumption || lia). rewrite Hk. reflexivity.
Qed.

(** C4 (amended): [close()] on an open session succeeds and closes it; then
    [extend_pcr] and [set_certificate] with a non-empty payload,
    [describe_pcr], for any slot that passes the client's check and fits a
    [uint32_t], and [get_attestation] raise [NsmSessionClosedError] and
    change nothing; closing again succeeds, through the client and through
    the transport. *)
Theorem closed_session_calls_fail (s : nsm_session) certs :
  closed s = false ->
  exists t1,
    NsmClient.close (Some (mk_transport s certs)) = (Ok (), Some t1) /\
    closed (session t1) = true /\
    (forall slot data, 0 <= slot < 2 ^ 32 -> data <> [] ->
       NsmClient.extend_pcr slot data (Some t1)
       = (Raise (Exc NsmSessionClosedError None), Some t1)) /\
    (forall slot, 0 <= slot < 2 ^ 32 ->
       NsmClient.describe_pcr slot (Some t1)
       = (Raise (Exc NsmSessionClosedError None), Some t1)) /\
    (forall slot cert, 0 <= slot < 2 ^ 32 -> cert <> [] ->
       NsmClient.set_certificate slot cert (Some t1)
       = (Raise (Exc NsmSessionClosedError None), Some t1)) /\
    (forall now u p n,
       NsmClient.get_attestation now u p n (Some t1)
       = (Raise (Exc NsmSessionClosedError None), Some t1)) /\
    NsmClient.close (Some t1) = (Ok (), Some t1) /\
    NsmTransport.close t1 = (Ok (), t1).
Proof.
  intros Hc. exists (mk_transport (set_closed s) certs).
  assert (Hc1 : closed (set_closed s) = true) by reflexivity.
  split.
  { unfold NsmClient.close, NsmClient.with_transport.
    erewrite bind_ok by reflexivity. cbn [nsm_session_is_closed native session].
    rewrite Hc. rewrite transport_close_open by exact Hc. reflexivity. }
  split; [exact Hc1|].
  split.
  { intros slot data Hs Hd.
    apply client_extend_native_error with (code := NSM_ERR_CLOSED);
      [exact Hs | exact Hd | | reflexivity].
    unfold NativeModel.extend_pcr. rewrite Hc1. reflexivity. }
  split.
  { intros slot Hs.
    apply client_describe_native_error with (code := NSM_ERR_CLOSED);
      [exact Hs | | reflexivity].
    unfold NativeModel.describe_pcr. rewrite Hc1. reflexivity. }
  split.
  { intros slot cert Hs Hd. unfold NsmClient.set_certificate.
    replace (slot <? 0) with false by zb.
    destruct cert as [|b rest]; [congruence|].
    unfold NsmClient.with_transport. rewrite set_certificate_closed by assumption.
    reflexivity. }
  split.
  { intros now u p n. unfold NsmClient.get_attestation, NsmClient.with_transport.
    rewrite get_attestation_closed by exact Hc1. reflexivity. }
  split.
  { unfold NsmClient.close, NsmClient.with_transport.
    erewrite bind_ok by reflexivity. cbn [nsm_session_is_closed native session].
    rewrite Hc1. reflexivity. }
  apply transport_close_closed. exact Hc1.
Qed.

(** C5 (amended): on an open session, for [0 <= k < 2^32], [lock_pcrs(k)]
    succeeds; afterwards every slot below [min(k, 32)] is locked, and every
    slot at or above [k] keeps its lock flag and its digest. *)
Theorem lock_pcrs_locks_prefix (s : nsm_session) certs k :
  closed s = false -> 0 <= k < 2 ^ 32 ->
  exists s',
    NsmClient.lock_pcrs k (Some (mk_transport s certs))
    = (Ok true, Some (mk_transport s' certs)) /\
    (forall i, 0 <= i < Z.min k PCR_SLOTS -> pcr_locks s' i = true) /\
    (forall i, k <= i -> pcr_locks s' i = pcr_locks s i /\ pcrs s' i = pcrs s i).
Proof.
  intros Hc Hk. exists (set_locks s (fun i => (i <? k) || pcr_locks s i)).
  split.
  { unfold NsmClient.lock_pcrs. replace (k <? 0) with false by zb.
    unfold NsmClient.with_transport. rewrite lock_pcrs_open by assumption.
    reflexivity. }
  split.
  - intros i Hi. simpl. replace (i <? k) with true by (unfold PCR_SLOTS in Hi; zb).
    reflexivity.
  - intros i Hi. simpl. replace (i <? k) with false by zb. split; reflexivity.
Qed.

(** C6 (amended): on an open session, for a slot in [32, 2^32),
    [describe_pcr] and [extend_pcr] with non-empty data raise
    [NsmInvalidPcrError] and change nothing; a negative slot is rejected by
    the client's own check with a plain [NsmError], also changing nothing. *)
Theorem out_of_range_pcr_slots (s : nsm_session) certs slot data :
  closed s = false -> 32 <= slot < 2 ^ 32 -> data <> [] ->
  NsmClient.describe_pcr slot (Some (mk_transport s certs))
  = (Raise (Exc NsmInvalidPcrError None), Some (mk_transport s certs)) /\
  NsmClient.extend_pcr slot data (Some (mk_transport s certs))
  = (Raise (Exc NsmInvalidPcrError None), Some (mk_transport s certs)) /\
  (forall neg, neg < 0 ->
     NsmClient.describe_pcr neg (Some (mk_transport s certs))
     = (Raise (Exc NsmError None), Some (mk_transport s certs)) /\
     NsmClient.extend_pcr neg data (Some (mk_transport s certs))
     = (Raise (Exc NsmError None), Some (mk_transport s certs))).
Proof.
  intros Hc Hs Hd. split; [|split].
  - apply client_describe_native_error with (code := NSM_ERR_INVALID_SLOT);
      [lia | | reflexivity].
    unfold NativeModel.describe_pcr. rewrite Hc.
    replace (slot >=? PCR_SLOTS) with true by zb. reflexivity.
  - apply client_extend_native_error with (code := NSM_ERR_INVALID_SLOT);
      [lia | exact Hd | | reflexivity].
    unfold NativeModel.extend_pcr. rewrite Hc.
    replace (slot >=? PCR_SLOTS) with true by zb. reflexivity.
  - intros neg Hn. unfold NsmClient.describe_pcr, NsmClient.extend_pcr.
    replace (neg <? 0) with true by zb. split; reflexivity.
Qed.

(** C7 (amended): on an open session, for a slot in [0,4),
    [set_certificate(slot, b"")] raises a plain [NsmError] from the client's
    check (the transport alone raises [NsmCertificateError], its
    translation of the native invalid-length code) and changes nothing; and
    no sequence of calls on a fresh session ever stores an empty payload. *)
Theorem empty_certificate_rejected (s : nsm_session) certs slot :
  closed s = false -> 0 <= slot < 4 ->
  NsmClient.set_certificate slot [] (Some (mk_transport s certs))
  = (Raise (Exc NsmError None), Some (mk_transport s certs)) /\
  NsmTransport.set_certificate slot [] (mk_transport s certs)
  = (Raise (Exc NsmCertificateError None), mk_transport s certs) /\
  (forall mid ops t2,
     NsmClient.run_ops ops (Some (mk_transport (nsm_session_new mid) ∅)) = Some t2 ->
     forall i d, cert_data (session t2) i = Some d -> d <> []).
Proof.
  intros Hc Hs. split; [|split].
  - unfold NsmClient.set_certificate. replace (slot <? 0) with false by zb.
    reflexivity.
  - unfold NsmTransport.set_certificate.
    erewrite bind_ok by (apply ffi_ok; lia).
    erewrite bind_ok.
    2:{ apply call_eq. cbn [nsm_set_certificate native].
        unfold NativeModel.set_certificate. rewrite Hc.
        replace (slot >=? CERTIFICATE_SLOTS) with false by zb. reflexivity. }
    erewrite bind_raise by (apply raise_error_raise; reflexivity). reflexivity.
  - intros mid ops t2 E.
    pose proof (runs_keep_nonempty ops (Some (mk_transport (nsm_session_new mid) ∅)))
      as Hk.
    rewrite E in Hk. apply Hk. simpl. intros i d Hd. discriminate.
Qed.

(** C8: on an open session, [_first_certificate] returns, without failing,
    the first present payload of certificate slots 0, 1, 2, 3 scanned in
    that order ([None] when all are empty), and [get_attestation] puts it
    in the document's [certificate] field. *)
Theorem attestation_certificate_first_present (s : nsm_session) certs now u p n :
  closed s = false ->
  first_certificate (mk_transport s certs)
  = (Ok (first_present (cert_data s) [0; 1; 2; 3]), mk_transport s certs) /\
  exists pl,
    NsmTransport.get_attestation now u p n (mk_transport s certs)
    = (Ok pl, mk_transport s certs) /\
    p_certificate pl = first_present (cert_data s) [0; 1; 2; 3].
Proof.
  intros Hc. split.
  - apply first_certificate_open. exact Hc.
  - eexists. split; [apply get_attestation_open; exact Hc|]. reflexivity.
Qed.

(** C10: the optional inputs are fed to the hash untagged: the same bytes
    as [user_data], as [public_key] or as [nonce] give the same digest. *)
Theorem attestation_digest_untagged_optionals (pcr_values : list (list byte))
    (b : list byte) :
  attestation_digest pcr_values (Some b) None None
  = attestation_digest pcr_values None (Some b) None /\
  attestation_digest pcr_values None (Some b) None
  = attestation_digest pcr_values None None (Some b).
Proof.
  unfold attestation_digest. destruct (truthy (Some b)); simpl; split; reflexivity.
Qed.

End Claims.

(** C9: for any native library, on a session reported open, an exception
    raised while reading the PCR digests or the lock flags (the [try] block
    of [get_attestation]) is an [NsmError], and [get_attestation] raises
    [NsmAttestationError] with it as cause, in the state the block left. *)
Theorem get_attestation_wraps_read_failures {S : Type} `{L : NsmLib S} `{Sha256}
    (t : transport S) now u p n e t' :
  nsm_session_is_closed (session t) = false ->
  attestation_snapshot u p n t = (Raise e, t') ->
  is_nsm_error (exc_cls e) = true /\
  NsmTransport.get_attestation now u p n t
  = (Raise (Exc NsmAttestationError (Some e)), t').
Proof.
  intros Hc Hsnap.
  assert (He : is_nsm_error (exc_cls e) = true)
    by exact (RaiseProofs.rn_attestation_snapshot u p n t e t' Hsnap).
  split; [exact He|].
  unfold NsmTransport.get_attestation.
  erewrite bind_ok by reflexivity. rewrite Hc.
  erewrite bind_raise; [reflexivity|].
  unfold try_except_nsm. rewrite Hsnap, He. reflexivity.
Qed.

(** ** Concrete runs

    The runs below use a fresh session of the native model, with module id
    "i-0123456789abcdef0", and a stand-in for SHA-256. *)

#[local] Existing Instance Concrete.stand_in_sha256.

Lemma hello_nonempty : hello <> [].
Proof. unfold hello. simpl. discriminate. Qed.

(** On a fresh session, the digest of the attestation document for
    [user_data = b"hello"] is the hash of the 32 zero digests and the bytes
    of "hello". *)
Lemma get_attestation_digest_composition_witness :
  closed (session fresh_transport) = false /\
  exists pl,
    NsmTransport.get_attestation 0 (Some hello) None None fresh_transport
    = (Ok pl, fresh_transport) /\
    p_digest pl = sha256 (concat (map (pcrs (session fresh_transport))
                                     (seqZ 0 PCR_SLOTS)) ++ hello).
Proof.
  split; [reflexivity|].
  destruct (get_attestation_digest_composition fresh_transport 0 (Some hello) None None
              eq_refl) as [[pl [E D]] _].
  exists pl. split; [exact E|]. rewrite D. reflexivity.
Defined.

(** Extending slot 0 of a fresh session with "hello". *)
Lemma extend_pcr_hash_chain_witness :
  NsmClient.extend_pcr 0 hello fresh_client
  = (Ok (NsmClient.mk_PcrValue 0 (sha256 (repeat Byte.x00 32 ++ hello)) false),
     Some (mk_transport (set_pcr (nsm_session_new "i-0123456789abcdef0") 0
                           (sha256 (repeat Byte.x00 32 ++ hello))) ∅)).
Proof.
  exact (proj1 (extend_pcr_hash_chain (nsm_session_new "i-0123456789abcdef0") ∅ 0 hello
                  eq_refl ltac:(lia) eq_refl hello_nonempty)).
Defined.

(** Locking slot 0 of a fresh session, then extending slot 1 and closing:
    slot 0 stays locked. *)
Lemma lock_pcr_permanent_witness :
  exists t2,
    NsmClient.run_ops [NsmClient.OpExtendPcr 1 hello; NsmClient.OpClose]
      (Some (mk_transport (set_locks (nsm_session_new "i-0123456789abcdef0")
                             (fun i => (i =? 0) || false)) ∅)) = Some t2 /\
    pcr_locks (session t2) 0 = true.
Proof.
  destruct (lock_pcr_permanent (nsm_session_new "i-0123456789abcdef0") ∅ 0 true
              (Some (mk_transport (set_locks (nsm_session_new "i-0123456789abcdef0")
                                     (fun i => (i =? 0) || false)) ∅))
              [NsmClient.OpExtendPcr 1 hello; NsmClient.OpClose] eq_refl) as (t2 & E & Hl & _).
  exists t2. split; [exact E | exact Hl].
Defined.

(** Closing a fresh session closes it. *)
Lemma closed_session_calls_fail_witness :
  exists t1,
    NsmClient.close fresh_client = (Ok (), Some t1) /\ closed (session t1) = true /\
    NsmClient.describe_pcr 0 (Some t1)
    = (Raise (Exc NsmSessionClosedError None), Some t1).
Proof.
  destruct (closed_session_calls_fail (nsm_session_new "i-0123456789abcdef0") ∅ eq_refl)
    as (t1 & E & Hc & _ & Hd & _).
  exists t1. split; [exact E|]. split; [exact Hc|]. apply Hd. lia.
Defined.

(** [lock_pcrs(2)] on a fresh session locks slots 0 and 1 and leaves slot 2
    unlocked. *)
Lemma lock_pcrs_locks_prefix_witness :
  exists s',
    NsmClient.lock_pcrs 2 fresh_client = (Ok true, Some (mk_transport s' ∅)) /\
    pcr_locks s' 0 = true /\ pcr_locks s' 1 = true /\ pcr_locks s' 2 = false.
Proof.
  destruct (lock_pcrs_locks_prefix (nsm_session_new "i-0123456789abcdef0") ∅ 2
              eq_refl ltac:(lia)) as (s' & E & Hin & Hout).
  exists s'. split; [exact E|].
  split; [apply Hin; unfold PCR_SLOTS; lia|].
  split; [apply Hin; unfold PCR_SLOTS; lia|].
  destruct (Hout 2 ltac:(lia)) as [-> _]. reflexivity.
Defined.

(** [describe_pcr(999)] on a fresh session raises [NsmInvalidPcrError]. *)
Lemma out_of_range_pcr_slots_witness :
  NsmClient.describe_pcr 999 fresh_client
  = (Raise (Exc NsmInvalidPcrError None), fresh_client).
Proof.
  exact (proj1 (out_of_range_pcr_slots (nsm_session_new "i-0123456789abcdef0") ∅ 999
                  hello eq_refl ltac:(lia) hello_nonempty)).
Defined.

(** [set_certificate(0, b"")] on a fresh session raises [NsmError]. *)
Lemma empty_certificate_rejected_witness :
  NsmClient.set_certificate 0 [] fresh_client
  = (Raise (Exc NsmError None), fresh_client).
Proof.
  exact (proj1 (empty_certificate_rejected (nsm_session_new "i-0123456789abcdef0") ∅ 0
                  eq_refl ltac:(lia))).
Defined.

(** A fresh session holds no certificate: [_first_certificate] returns
    [None]. *)
Lemma attestation_certificate_first_present_witness :
  first_certificate fresh_transport = (Ok None, fresh_transport).
Proof.
  exact (proj1 (attestation_certificate_first_present
                  (nsm_session_new "i-0123456789abcdef0") ∅ 0 None None None eq_refl)).
Defined.

(** With a native library whose slot 5 reads back as invalid, the
    [NsmInvalidPcrError] of the read becomes the cause of an
    [NsmAttestationError]. *)
Lemma get_attestation_wraps_read_failures_witness :
  NsmTransport.get_attestation (L := invalidated_native 5) 0 None None None fresh_transport
  = (Raise (Exc NsmAttestationError (Some (Exc NsmInvalidPcrError None))),
     fresh_transport).
Proof.
  exact (proj2 (get_attestation_wraps_read_failures (L := invalidated_native 5)
                  fresh_transport 0 None None None (Exc NsmInvalidPcrError None)
                  fresh_transport eq_refl eq_refl)).
Defined.

(** Counterexamples *)

(** After [lock_pcr(0)] succeeds, [extend_pcr(0, b"")] raises a plain
    [NsmError] from the client's check, not [NsmPcrLockedError]. *)
Lemma lock_pcr_then_empty_extend :
  exists c,
    NsmClient.lock_pcr 0 fresh_client = (Ok true, c) /\
    fst (NsmClient.extend_pcr 0 [] c) = Raise (Exc NsmError None).
Proof. eexists. split; reflexivity. Qed.

(** After [close()], [set_certificate(0, b"")] raises a plain [NsmError],
    not [NsmSessionClosedError]. *)
Lemma close_then_empty_certificate :
  exists c,
    NsmClient.close fresh_client = (Ok (), c) /\
    fst (NsmClient.set_certificate 0 [] c) = Raise (Exc NsmError None).
Proof. eexists. split; reflexivity. Qed.

(** [lock_pcrs(2**32)] raises [OverflowError] when the argument is
    converted to [uint32_t]. *)
Lemma lock_pcrs_overflow :
  fst (NsmClient.lock_pcrs (2 ^ 32) fresh_client) = Raise (Exc OverflowError None).
Proof. reflexivity. Qed.

(** [describe_pcr(-1)] raises a plain [NsmError], not
    [NsmInvalidPcrError]. *)
Lemma describe_pcr_negative_slot :
  fst (NsmClient.describe_pcr (-1) fresh_client) = Raise (Exc NsmError None).
Proof. reflexivity. Qed.

(** [set_certificate(0, b"")] raises a plain [NsmError], while the
    invalid-length code of the native library is translated to
    [NsmCertificateError]. *)
Lemma set_empty_certificate_kind :
  fst (NsmClient.set_certificate 0 [] fresh_client) = Raise (Exc NsmError None) /\
  raise_error_exc NSM_ERR_INVALID_LENGTH "certificate"
  = Some (Exc NsmCertificateError None).
Proof. split; reflexivity. Qed.

End Claims.

(** * Further properties of the code *)

Module Extras.
Import NsmTransport NsmClient PyMFacts InvMore.

Module Generic.
Section Generic.
Context {S : Type} `{L : NsmLib S} `{Sha256}.

Lemma bind_ok_inv {T A B} (m : PyM T A) (f : A -> PyM T B) t b t' :
  mbind f m t = (Ok b, t') -> exists a t1, m t = (Ok a, t1) /\ f a t1 = (Ok b, t').
Proof. unfold mbind, PyM_bind. destruct (m t) as [[a|e] t1]; [eauto|discriminate]. Qed.

Lemma ro_ret {A} (a : A) : read_only (S := S) (mret a).
Proof. intros t. reflexivity. Qed.
Lemma ro_raise {A} e : read_only (S := S) (raise (A := A) e).
Proof. intros t. reflexivity. Qed.
Lemma ro_bind {A B} (m : PyM (transport S) A) (f : A -> PyM (transport S) B) :
  read_only m -> (forall a, read_only (f a)) -> read_only (mbind f m).
Proof.
  intros Hm Hf t. unfold mbind, PyM_bind. specialize (Hm t).
  destruct (m t) as [[a|e] t1]; simpl in *; subst; [apply Hf | reflexivity].
Qed.
Lemma ro_call_ro {A} (f : S -> A) : read_only (call_ro f).
Proof. intros t. reflexivity. Qed.
Lemma ro_raise_error code ctx : read_only (S := S) (raise_error code ctx).
Proof. intros t. unfold raise_error. destruct (raise_error_exc _ _); reflexivity. Qed.
Lemma ro_ffi z : read_only (S := S) (ffi_uint32 z).
Proof. intros t. unfold ffi_uint32. destruct (_ && _); reflexivity. Qed.
Lemma ro_py_map {A B} (f : A -> PyM (transport S) B) xs :
  (forall x, read_only (f x)) -> read_only (py_map f xs).
Proof.
  intros Hf. induction xs as [|x xs IH]; simpl; [apply ro_ret|].
  apply ro_bind; [apply Hf|]. intros b. apply ro_bind; [exact IH|]. intros. apply ro_ret.
Qed.
Lemma ro_try {A} (body : PyM (transport S) A) h :
  read_only body -> (forall e, read_only (h e)) -> read_only (try_except_nsm body h).
Proof.
  intros Hb Hh t. unfold try_except_nsm. specialize (Hb t).
  destruct (body t) as [[a|e] t1]; simpl in *; [exact Hb|].
  destruct (is_nsm_error _); simpl; [rewrite Hh|]; exact Hb.
Qed.
Lemma ro_certificate_count : read_only (S := S) NsmTransportMore.certificate_count.
Proof. intros t. reflexivity. Qed.

Ltac ro_tac :=
  repeat first
    [ apply ro_ret | apply ro_raise | apply ro_call_ro | apply ro_raise_error
    | apply ro_ffi | apply ro_certificate_count
    | apply ro_bind; [| intros ?]
    | apply ro_try; [| intros ?]
    | apply ro_py_map; intros ?
    | match goal with
      | |- read_only (let '(_, _) := ?x in _) => destruct x
      | |- read_only (if ?b then _ else _) => destruct b
      | |- read_only (match ?x with _ => _ end) => destruct x
      end ].

Lemma ro_first_certificate_from l : read_only (S := S) (first_certificate_from l).
Proof. induction l as [|i l IH]; simpl; ro_tac; exact IH. Qed.

Lemma ro_locked_flags : read_only (S := S) locked_flags.
Proof. unfold locked_flags. ro_tac. Qed.

Lemma ro_module_id : read_only (S := S) module_id.
Proof. unfold module_id. ro_tac. Qed.

Lemma ro_describe_pcr_raw slot : read_only (S := S) (describe_pcr_raw slot).
Proof. unfold describe_pcr_raw, slot_locked, locked_flags. ro_tac. Qed.

Lemma ro_snapshot u p n : read_only (S := S) (attestation_snapshot u p n).
Proof.
  unfold attestation_snapshot. apply ro_bind.
  - apply ro_py_map. intros i. apply ro_bind; [|intros; apply ro_ret].
    unfold NsmTransport.describe_pcr. apply ro_bind; [apply ro_describe_pcr_raw|].
    intros; apply ro_ret.
  - intros pcrs. apply ro_bind; [apply ro_locked_flags|]. intros; apply ro_ret.
Qed.

Lemma ro_get_attestation now u p n :
  read_only (S := S) (NsmTransport.get_attestation now u p n).
Proof.
  unfold NsmTransport.get_attestation, is_closed. apply ro_bind; [apply ro_call_ro|].
  intros c. destruct c; [apply ro_raise|].
  apply ro_bind; [apply ro_try; [apply ro_snapshot | intros; apply ro_raise]|].
  intros [[pcrs dg] lk]. unfold module_id, first_certificate. ro_tac.
  all: apply ro_first_certificate_from.
Qed.

Lemma ro_describe_nsm dp : read_only (S := S) (NsmTransportMore.describe_nsm dp).
Proof. unfold NsmTransportMore.describe_nsm, module_id, locked_flags. ro_tac. Qed.

Lemma ro_state {A} (m : PyM (transport S) A) t r t' :
  read_only m -> m t = (r, t') -> t' = t.
Proof. intros Hm E. specialize (Hm t). rewrite E in Hm. exact Hm. Qed.

Lemma ffi_overflow_g (t : transport S) z :
  ~ (0 <= z < 2 ^ 32) -> ffi_uint32 z t = (Raise (Exc OverflowError None), t).
Proof.
  intros Hz. unfold ffi_uint32.
  destruct (0 <=? z) eqn:E1; destruct (z <? 2 ^ 32) eqn:E2; try reflexivity.
  apply Z.leb_le in E1. apply Z.ltb_lt in E2. lia.
Qed.

(** What a successful [get_attestation] read. *)
Lemma get_attestation_ok_shape (t : transport S) now u p n pl t' :
  NsmTransport.get_attestation now u p n t = (Ok pl, t') ->
  t' = t /\
  (exists flags, locked_flags t = (Ok flags, t) /\ p_locked_pcrs pl = enumerate_set_from 0 flags) /\
  (exists mid, module_id t = (Ok mid, t) /\ p_module_id pl = mid) /\
  p_timestamp pl = now /\ p_cabundle pl = None /\
  p_user_data pl = u /\ p_public_key pl = p /\ p_nonce pl = n.
Proof.
  intros E. assert (Et : t' = t) by exact (ro_state _ _ _ _ (ro_get_attestation now u p n) E).
  subst t'. split; [reflexivity|].
  unfold NsmTransport.get_attestation in E.
  apply bind_ok_inv in E as (c & t1 & Ec & E).
  unfold is_closed, call_ro in Ec. injection Ec as <- <-.
  destruct (nsm_session_is_closed (session t)); [discriminate|].
  apply bind_ok_inv in E as (snap & t2 & Es & E).
  unfold try_except_nsm in Es.
  destruct (attestation_snapshot u p n t) as [[snap'|e] t2'] eqn:Esn;
    [injection Es as <- <- | destruct (is_nsm_error _); discriminate].
  pose proof (ro_state _ _ _ _ (ro_snapshot u p n) Esn) as ->.
  unfold attestation_snapshot in Esn.
  apply bind_ok_inv in Esn as (pcrs & t3 & Ep & Esn).
  pose proof (ro_state _ _ _ _ (ro_py_map _ _ (fun i => ro_bind _ _ (ro_bind _ _ (ro_describe_pcr_raw i) (fun _ => ro_ret _)) (fun _ => ro_ret _))) Ep) as ->.
  apply bind_ok_inv in Esn as (flags & t4 & Ef & Esn).
  pose proof (ro_state _ _ _ _ ro_locked_flags Ef) as ->.
  unfold mret, PyM_ret in Esn. injection Esn as <-. simpl in E.
  apply bind_ok_inv in E as (mid & t5 & Em & E).
  assert (Hm : read_only (S := S) module_id) by (unfold module_id; ro_tac).
  pose proof (ro_state _ _ _ _ Hm Em) as ->.
  apply bind_ok_inv in E as (cert & t6 & Ec & E).
  unfold mret, PyM_ret in E. injection E as <- _. simpl.
  split; [exists flags; split; [exact Ef | reflexivity]|].
  split; [exists mid; split; [exact Em | reflexivity]|].
  repeat split.
Qed.

End Generic.
End Generic.

Module Sorting.

Lemma enumerate_sorted i flags :
  StronglySorted Z.lt (enumerate_set_from i flags) /\
  Forall (fun x => i <= x) (enumerate_set_from i flags).
Proof.
  revert i. induction flags as [|f rest IH]; intros i; simpl; [split; constructor|].
  destruct (IH (i + 1)) as [Hs Hf].
  destruct (negb (f =? 0)).
  - split.
    + constructor; [exact Hs|]. eapply Forall_impl; [exact Hf|]. intros x Hx; simpl in *; lia.
    + constructor; [lia|]. eapply Forall_impl; [exact Hf|]. intros x Hx; simpl in *; lia.
  - split; [exact Hs|]. eapply Forall_impl; [exact Hf|]. intros x Hx; simpl in *; lia.
Qed.

Lemma ssorted_lt_le_nodup (l : list Z) :
  StronglySorted Z.lt l -> NoDup l /\ StronglySorted Z.le l.
Proof.
  induction 1 as [|a l Hs [Hn Hl] Hf]; [split; constructor|].
  split.
  - apply NoDup_cons_2; [|exact Hn]. intros Hin.
    rewrite Forall_forall in Hf. specialize (Hf a Hin). lia.
  - constructor; [exact Hl|]. eapply Forall_impl; [exact Hf|]. intros x Hx; simpl in *; lia.
Qed.

Lemma sorted_set_roundtrip (l : list Z) :
  StronglySorted Z.lt l -> merge_sort Z.le (elements (list_to_set l : gset Z)) = l.
Proof.
  intros Hs. apply ssorted_lt_le_nodup in Hs as [Hn Hle].
  apply (Sorted_unique Z.le).
  - apply Sorted_merge_sort. intros x y; lia.
  - apply StronglySorted_Sorted, Hle.
  - rewrite merge_sort_Permutation. apply NoDup_Permutation; [apply NoDup_elements | exact Hn |].
    intros x. rewrite elem_of_elements, elem_of_list_to_set. reflexivity.
Qed.

End Sorting.

Import Generic.

(** X1: [_raise_error] raises nothing exactly for [NSM_OK], and every
    exception it raises is a bare one, with no cause attached. *)
Theorem raise_error_ok_only (code : Z) (context : string) :
  (raise_error_exc code context = None <-> code = NSM_OK) /\
  (forall e, raise_error_exc code context = Some e -> exc_cause e = None).
Proof.
  unfold raise_error_exc. split.
  - split.
    + destruct (code =? NSM_OK) eqn:E; [intros _; apply Z.eqb_eq, E|].
      repeat case_match; discriminate.
    + intros ->. reflexivity.
  - intros e. repeat case_match; intros Ee; inversion Ee; reflexivity.
Qed.

(** X2: the [context] argument of [_raise_error] only matters for the
    invalid-length and invalid-slot codes; for every other code two contexts
    give the same outcome. *)
Theorem raise_error_context_only_for_length_and_slot code c1 c2 :
  code <> NSM_ERR_INVALID_LENGTH -> code <> NSM_ERR_INVALID_SLOT ->
  raise_error_exc code c1 = raise_error_exc code c2.
Proof.
  intros H1 H2. unfold raise_error_exc.
  apply Z.eqb_neq in H1, H2. rewrite H1, H2. reflexivity.
Qed.

(** X3: the exception classes of [_raise_error]: a closed session
    [NsmSessionClosedError], a locked PCR [NsmPcrLockedError], an invalid
    slot [NsmInvalidPcrError] for context "pcr" only, an invalid length
    [NsmRandomError] for context "random" only, and [NsmCertificateError]
    for a missing certificate, an invalid length in context "certificate"
    or an invalid slot in any context other than "pcr". *)
Theorem raise_error_classes code context :
  (raise_error_exc code context = Some (Exc NsmSessionClosedError None)
   <-> code = NSM_ERR_CLOSED) /\
  (raise_error_exc code context = Some (Exc NsmPcrLockedError None)
   <-> code = NSM_ERR_LOCKED) /\
  (raise_error_exc code context = Some (Exc NsmInvalidPcrError None)
   <-> code = NSM_ERR_INVALID_SLOT /\ context = "pcr"%string) /\
  (raise_error_exc code context = Some (Exc NsmRandomError None)
   <-> code = NSM_ERR_INVALID_LENGTH /\ context = "random"%string) /\
  (raise_error_exc code context = Some (Exc NsmCertificateError None)
   <-> code = NSM_ERR_CERT_MISSING \/
       (code = NSM_ERR_INVALID_LENGTH /\ context = "certificate"%string) \/
       (code = NSM_ERR_INVALID_SLOT /\ context <> "pcr"%string)).
Proof.
  unfold raise_error_exc, NSM_OK, NSM_ERR_CLOSED, NSM_ERR_NO_MEMORY, NSM_ERR_INVALID_LENGTH,
    NSM_ERR_LOCKED, NSM_ERR_CERT_MISSING, NSM_ERR_INVALID_SLOT.
  repeat match goal with |- context [?a =? ?b] => destruct (Z.eqb_spec a b) end;
  repeat match goal with |- context [String.eqb ?a ?b] => destruct (String.eqb_spec a b) end;
  subst; intuition (try discriminate; try congruence; try lia).
Qed.

Section AnyNative.
Context {S : Type} `{L : NsmLib S} `{Sha256}.

(** X4: a slot (or lock range) of [2 ** 32] or more, given to a client
    holding a transport (with non-empty data where the method takes data),
    raises CFFI's [OverflowError] from every slot
    method, before the native library is called and with the transport
    unchanged; [OverflowError] is not an [NsmError]. *)
Theorem slot_overflow_not_nsm_error (t : transport S) z data :
  2 ^ 32 <= z -> data <> [] ->
  NsmClient.describe_pcr z (Some t) = (Raise (Exc OverflowError None), Some t) /\
  NsmClient.extend_pcr z data (Some t) = (Raise (Exc OverflowError None), Some t) /\
  NsmClient.lock_pcr z (Some t) = (Raise (Exc OverflowError None), Some t) /\
  NsmClient.lock_pcrs z (Some t) = (Raise (Exc OverflowError None), Some t) /\
  NsmClient.set_certificate z data (Some t) = (Raise (Exc OverflowError None), Some t) /\
  NsmClient.describe_certificate z (Some t) = (Raise (Exc OverflowError None), Some t) /\
  NsmClient.remove_certificate z (Some t) = (Raise (Exc OverflowError None), Some t) /\
  is_nsm_error OverflowError = false.
Proof.
  intros Hz Hd.
  unfold NsmClient.describe_pcr, NsmClient.extend_pcr, NsmClient.lock_pcr,
    NsmClient.lock_pcrs, NsmClient.set_certificate, NsmClient.describe_certificate,
    NsmClient.remove_certificate.
  replace (z <? 0) with false by zb.
  destruct data as [|b rest]; [congruence|].
  unfold NsmClient.with_transport, describe_pcr_raw, NsmTransport.extend_pcr,
    NsmTransport.lock_pcr, NsmTransport.lock_pcrs, NsmTransport.set_certificate,
    NsmTransport.describe_certificate, NsmTransport.remove_certificate.
  pose proof (ffi_overflow_g t z ltac:(lia)) as Eo.
  repeat split; cbv [mbind PyM_bind]; rewrite Eo; reflexivity.
Qed.

(** X5: [get_attestation], [describe_nsm] and [describe_pcr_raw] of the
    transport leave the transport (session and certificate cache) as they
    found it, whether they return or raise, for any native library. *)
Theorem attestation_reads_leave_transport (t : transport S) now u p n dp slot :
  snd (NsmTransport.get_attestation now u p n t) = t /\
  snd (NsmTransportMore.describe_nsm dp t) = t /\
  snd (describe_pcr_raw slot t) = t.
Proof.
  split; [apply ro_get_attestation|]. split; [apply ro_describe_nsm|].
  apply ro_describe_pcr_raw.
Qed.

(** X6: when both succeed on the same transport, [describe_nsm] reports
    the same module id and the same list of locked PCRs as the payload of
    [get_attestation]. *)
Theorem describe_nsm_agrees_with_attestation (t : transport S) now u p n dp pl d t1 t2 :
  NsmTransport.get_attestation now u p n t = (Ok pl, t1) ->
  NsmTransportMore.describe_nsm dp t = (Ok d, t2) ->
  NsmTransportMore.d_module_id d = p_module_id pl /\
  NsmTransportMore.d_locked_pcrs d = p_locked_pcrs pl.
Proof.
  intros Eg Ed.
  apply get_attestation_ok_shape in Eg as (_ & (flags & Ef & ->) & (mid & Em & ->) & _).
  unfold NsmTransportMore.describe_nsm in Ed.
  erewrite bind_ok in Ed by exact Em. erewrite bind_ok in Ed by exact Ef.
  cbv [NsmTransportMore.certificate_count mbind PyM_bind mret PyM_ret] in Ed.
  injection Ed as <- _. split; reflexivity.
Qed.

(** X7: the [AttestationDocument] read from a payload of
    [get_attestation] echoes its [user_data], [public_key] and [nonce], has
    no [cabundle] and the given timestamp, holds the payload's locked PCRs
    as a set, and [to_dict] lists them back exactly as the payload does. *)
Theorem attestation_document_echoes_payload (t : transport S) now u p n pl t' :
  NsmTransport.get_attestation now u p n t = (Ok pl, t') ->
  Types.td_locked_pcrs (Types.to_dict (Types.from_payload pl)) = p_locked_pcrs pl /\
  (forall i, i ∈ Types.doc_locked_pcrs (Types.from_payload pl) <-> i ∈ p_locked_pcrs pl) /\
  Types.doc_user_data (Types.from_payload pl) = u /\
  Types.doc_public_key (Types.from_payload pl) = p /\
  Types.doc_nonce (Types.from_payload pl) = n /\
  Types.doc_cabundle (Types.from_payload pl) = None /\
  Types.doc_timestamp (Types.from_payload pl) = now.
Proof.
  intros E.
  apply get_attestation_ok_shape in E
    as (_ & (flags & _ & Elk) & _ & Ets & Ecb & Eu & Ep & En).
  unfold Types.to_dict, Types.from_payload. simpl.
  rewrite Elk, Ets, Ecb, Eu, Ep, En.
  split; [apply Sorting.sorted_set_roundtrip, (proj1 (Sorting.enumerate_sorted 0 flags))|].
  split; [intros i; apply elem_of_list_to_set|].
  repeat split.
Qed.

(** X18: when the native library returns a NULL module id,
    [get_attestation] raises a plain [NsmError], not wrapped in
    [NsmAttestationError], after the PCRs were read. *)
Theorem module_id_failure_not_wrapped (t : transport S) now u p n snap :
  nsm_session_is_closed (session t) = false ->
  attestation_snapshot u p n t = (Ok snap, t) ->
  nsm_module_id (session t) = None ->
  NsmTransport.get_attestation now u p n t = (Raise (Exc NsmError None), t).
Proof.
  intros Hc Hs Hm. unfold NsmTransport.get_attestation.
  erewrite bind_ok by reflexivity. rewrite Hc.
  erewrite bind_ok by (unfold try_except_nsm; rewrite Hs; reflexivity).
  destruct snap as [[pcrs dg] lk]. cbv beta iota.
  erewrite bind_raise; [reflexivity|].
  unfold module_id. erewrite bind_ok by reflexivity. rewrite Hm. reflexivity.
Qed.

(** X19: before [open()], every call of the client that needs the
    transport raises [NsmError] and leaves the client unopened, while
    [close()] does nothing. *)
Theorem unopened_client_raises (slot : Z) (data : list byte) now u p n :
  NsmClient.describe_pcr slot None = (Raise (Exc NsmError None), None) /\
  NsmClientMore.describe_pcr_raw slot None = (Raise (Exc NsmError None), None) /\
  NsmClient.extend_pcr slot data None = (Raise (Exc NsmError None), None) /\
  NsmClient.lock_pcr slot None = (Raise (Exc NsmError None), None) /\
  NsmClient.lock_pcrs slot None = (Raise (Exc NsmError None), None) /\
  NsmClient.set_certificate slot data None = (Raise (Exc NsmError None), None) /\
  NsmClient.describe_certificate slot None = (Raise (Exc NsmError None), None) /\
  NsmClient.remove_certificate slot None = (Raise (Exc NsmError None), None) /\
  NsmClientMore.get_attestation_doc now u p n None = (Raise (Exc NsmError None), None) /\
  NsmClient.close None = (Ok (), None).
Proof.
  unfold NsmClient.describe_pcr, NsmClientMore.describe_pcr_raw, NsmClient.extend_pcr,
    NsmClient.lock_pcr, NsmClient.lock_pcrs, NsmClient.set_certificate,
    NsmClient.describe_certificate, NsmClient.remove_certificate,
    NsmClientMore.get_attestation_doc, NsmClient.get_attestation, NsmClient.close.
  repeat split; repeat case_match; reflexivity.
Qed.


End AnyNative.

Section Opening.
Import NsmTransportMore NsmClientMore.
Context {S : Type} `{L : NsmLib S} `{NsmSessionNew S}.

(** X15: [open()] with the default factory keeps an open transport;
    otherwise it resolves the device path, raises [NsmDeviceNotFoundError] when the path does not exist and
    [NsmError] when no session can be made, both leaving the client as it
    was, and else installs a transport on the new session with an empty
    certificate cache. *)
Theorem open_reuses_or_constructs path_str path_exists (c : client S) :
  let path := path_str (str_or (c_device_path c) DEFAULT_DEVICE_PATH) in
  (is_open c = true -> open (new_transport path_str path_exists) c = (Ok (), c)) /\
  (is_open c = false -> path_exists path = false ->
   open (new_transport path_str path_exists) c
   = (Raise (Exc NsmDeviceNotFoundError None), c)) /\
  (is_open c = false -> path_exists path = true -> nsm_session_new_ptr = None ->
   open (new_transport path_str path_exists) c = (Raise (Exc NsmError None), c)) /\
  (forall s, is_open c = false -> path_exists path = true -> nsm_session_new_ptr = Some s ->
   open (new_transport path_str path_exists) c
   = (Ok (), mk_client (c_device_path c) (Some (mk_transport s ∅, path)))).
Proof.
  cbv zeta. unfold is_open, open, new_transport.
  destruct c as [dp [[t p]|]]; cbn [c_transport c_device_path];
    [destruct (nsm_session_is_closed (session t)) eqn:Ec|]; cbn [negb];
    repeat split; intros; try discriminate;
    repeat match goal with E : _ = _ |- _ => rewrite E end; reflexivity.
Qed.

(** X17: a client made with [device_path=""] reports [""] as its device
    path until [open()], and the default path (as [str(Path(...))] gives it)
    once it is open. *)
Theorem device_path_empty_string path_str path_exists (c c' : client S) :
  c_device_path c = Some EmptyString -> c_transport c = None ->
  open (new_transport path_str path_exists) c = (Ok (), c') ->
  device_path c = EmptyString /\ device_path c' = path_str DEFAULT_DEVICE_PATH.
Proof.
  intros Hd Ht Eo. unfold device_path. rewrite Hd, Ht. split; [reflexivity|].
  unfold open, new_transport in Eo. rewrite Ht, Hd in Eo. cbn [str_or] in Eo.
  destruct (path_exists _); [|discriminate]. cbn [negb] in Eo.
  destruct nsm_session_new_ptr; [|discriminate].
  injection Eo as <-. reflexivity.
Qed.

End Opening.

Module Encoding.

Lemma hex_char_code (n : N) : (n < 16)%N ->
  Ascii.N_of_ascii (Types.hex_char n) = if (n <? 10)%N then (48 + n)%N else (87 + n)%N.
Proof.
  intros Hn. unfold Types.hex_char.
  destruct (n <? 10)%N; apply Ascii.N_ascii_embedding; lia.
Qed.

Lemma hex_char_inj (a b : N) : (a < 16)%N -> (b < 16)%N ->
  Types.hex_char a = Types.hex_char b -> a = b.
Proof.
  intros Ha Hb E. apply (f_equal Ascii.N_of_ascii) in E.
  rewrite !hex_char_code in E by assumption.
  destruct (N.ltb_spec a 10), (N.ltb_spec b 10); lia.
Qed.

Lemma byte_digits_inj (b1 b2 : byte) :
  Types.hex_char (Byte.to_N b1 / 16) = Types.hex_char (Byte.to_N b2 / 16) ->
  Types.hex_char (Byte.to_N b1 mod 16) = Types.hex_char (Byte.to_N b2 mod 16) ->
  b1 = b2.
Proof.
  intros Eh El.
  pose proof (Byte.to_N_bounded b1) as B1. pose proof (Byte.to_N_bounded b2) as B2.
  apply hex_char_inj in Eh; [|apply N.Div0.div_lt_upper_bound; lia..].
  apply hex_char_inj in El; [|apply N.mod_lt; lia..].
  assert (Byte.to_N b1 = Byte.to_N b2) as E.
  { rewrite (N.div_mod (Byte.to_N b1) 16), (N.div_mod (Byte.to_N b2) 16) by lia.
    rewrite Eh, El. reflexivity. }
  apply (f_equal Byte.of_N) in E. rewrite !Byte.of_to_N in E. congruence.
Qed.

Lemma latin1_roundtrip (o : option (list byte)) :
  option_map list_byte_of_string (Types.decode_if_truthy o)
  = if truthy o then o else None.
Proof.
  destruct o as [[|b l]|]; simpl; [reflexivity| |reflexivity].
  unfold Types.latin1_decode. rewrite list_byte_of_string_of_list_byte. reflexivity.
Qed.

End Encoding.

(** X9: [bytes.hex()] (as used by [to_dict]) gives two characters per
    byte and is injective, so distinct digests get distinct strings. *)
Theorem hex_length_injective (l1 l2 : list byte) :
  String.length (Types.hex l1) = (2 * length l1)%nat /\
  (Types.hex l1 = Types.hex l2 -> l1 = l2).
Proof.
  split.
  - induction l1 as [|b l IH]; simpl; [reflexivity|]. rewrite IH. lia.
  - revert l2. induction l1 as [|b1 l1 IH]; intros [|b2 l2]; simpl;
      try discriminate; [reflexivity|].
    intros E. injection E as Eh El Er.
    f_equal; [apply Encoding.byte_digits_inj; assumption | apply IH, Er].
Qed.

(** X10: each optional bytes field of [to_dict] is the latin-1 text of
    the bytes, which encodes back to the same bytes; a field that is [None]
    or empty becomes [None]. *)
Theorem to_dict_optional_bytes (d : Types.AttestationDocument) :
  option_map list_byte_of_string (Types.td_certificate (Types.to_dict d))
    = (if truthy (Types.doc_certificate d) then Types.doc_certificate d else None) /\
  option_map list_byte_of_string (Types.td_cabundle (Types.to_dict d))
    = (if truthy (Types.doc_cabundle d) then Types.doc_cabundle d else None) /\
  option_map list_byte_of_string (Types.td_user_data (Types.to_dict d))
    = (if truthy (Types.doc_user_data d) then Types.doc_user_data d else None) /\
  option_map list_byte_of_string (Types.td_public_key (Types.to_dict d))
    = (if truthy (Types.doc_public_key d) then Types.doc_public_key d else None) /\
  option_map list_byte_of_string (Types.td_nonce (Types.to_dict d))
    = (if truthy (Types.doc_nonce d) then Types.doc_nonce d else None).
Proof. cbn [Types.to_dict]. repeat split; apply Encoding.latin1_roundtrip. Qed.

Module Flags.
Import NativeModel.

Lemma enumerate_flags_filter (f : Z -> bool) (n : nat) i :
  enumerate_set_from i
    (map (fun j => byte_to_Z (if f j then Byte.x01 else Byte.x00)) (seqZ i (Z.of_nat n)))
  = filter (fun j => f j = true) (seqZ i (Z.of_nat n)).
Proof.
  revert i. induction n as [|n IH]; intros i; [reflexivity|].
  rewrite Nat2Z.inj_succ, seqZ_cons by lia. rewrite Z.pred_succ.
  cbn [map enumerate_set_from]. rewrite filter_cons.
  replace (i + 1) with (Z.succ i) by lia.
  destruct (f i); cbn iota beta;
    [rewrite decide_True by reflexivity | rewrite decide_False by discriminate];
    rewrite IH; reflexivity.
Qed.

Lemma locked_list_native (s : nsm_session) :
  enumerate_set_from 0
    (map (fun i => byte_to_Z (if (i <? PCR_SLOTS) && pcr_locks s i then Byte.x01 else Byte.x00))
       (seqZ 0 PCR_SLOTS))
  = filter (fun i => pcr_locks s i = true) (seqZ 0 PCR_SLOTS).
Proof.
  rewrite (map_ext_in _ (fun j => byte_to_Z (if pcr_locks s j then Byte.x01 else Byte.x00))).
  2:{ intros a Ha. apply list_elem_of_In, elem_of_seqZ in Ha. unfold PCR_SLOTS in *.
      replace (a <? 32) with true by zb. reflexivity. }
  exact (enumerate_flags_filter (pcr_locks s) 32 0).
Qed.

Lemma foldl_insert_lookup {V} (G : Z -> list byte -> V) (h : Z -> list byte)
    (l : list Z) (m : gmap Z V) k :
  foldl (fun (m : gmap Z V) (item : Z * list byte) =>
           let '(a, b) := item in <[a := G a b]> m) m (map (fun i => (i, h i)) l) !! k
  = if decide (k ∈ l) then Some (G k (h k)) else m !! k.
Proof.
  revert m. induction l as [|x l IH]; intros m; simpl; [reflexivity|].
  rewrite IH. destruct (decide (k ∈ l)) as [Hin|Hin].
  - rewrite decide_True by (apply elem_of_cons; auto). reflexivity.
  - destruct (decide (k = x)) as [->|Hne].
    + rewrite decide_True by (apply elem_of_cons; auto). apply lookup_insert_eq.
    + rewrite decide_False by (rewrite elem_of_cons; intuition).
      apply lookup_insert_ne. congruence.
Qed.

End Flags.

Section Native.
Import NativeModel NsmTransportMore.
Context `{Sha256}.

(** X11: [describe_nsm] of the transport on an open native session
    reports the module id, the device path, 32 PCR slots, 4 certificate
    slots, the locked slots in increasing order and the size of the
    certificate cache; on a closed session it raises
    [NsmSessionClosedError]. *)
Theorem describe_nsm_native (s : nsm_session) certs dp :
  (closed s = false ->
   describe_nsm dp (mk_transport s certs)
   = (Ok (mk_description (NativeModel.module_id s) dp PCR_SLOTS CERTIFICATE_SLOTS
            (filter (fun i => pcr_locks s i = true) (seqZ 0 PCR_SLOTS))
            (Z.of_nat (size certs))),
      mk_transport s certs)) /\
  (closed s = true ->
   describe_nsm dp (mk_transport s certs)
   = (Raise (Exc NsmSessionClosedError None), mk_transport s certs)).
Proof.
  split; intros Hc; unfold describe_nsm.
  - erewrite bind_ok by reflexivity.
    erewrite bind_ok by (apply ModelProofs.locked_flags_open; exact Hc).
    cbv beta zeta. cbn [session]. rewrite (Flags.locked_list_native s). reflexivity.
  - erewrite bind_ok by reflexivity.
    erewrite bind_raise; [reflexivity|].
    unfold NsmTransport.locked_flags.
    erewrite bind_ok by reflexivity. cbn [nsm_locked_flags native session].
    unfold NativeModel.locked_flags. rewrite Hc. reflexivity.
Qed.

(** X8: on an open native session, [get_attestation] of the client
    yields a document whose [pcrs] map holds, for each slot in [0, 32), the
    same [PcrValue] as [describe_pcr] of that slot, and nothing else; its
    locked set is the set of locked slots. *)
Theorem attestation_document_pcrs_native (s : nsm_session) certs now u p n :
  closed s = false ->
  exists doc,
    NsmClientMore.get_attestation_doc now u p n (Some (mk_transport s certs))
      = (Ok doc, Some (mk_transport s certs)) /\
    (forall i, 0 <= i < PCR_SLOTS ->
       Types.doc_pcrs doc !! i = Some (NsmClient.mk_PcrValue i (pcrs s i) (pcr_locks s i)) /\
       NsmClient.describe_pcr i (Some (mk_transport s certs))
         = (Ok (NsmClient.mk_PcrValue i (pcrs s i) (pcr_locks s i)),
            Some (mk_transport s certs))) /\
    (forall i, ~ (0 <= i < PCR_SLOTS) -> Types.doc_pcrs doc !! i = None) /\
    (forall i, i ∈ Types.doc_locked_pcrs doc <-> 0 <= i < PCR_SLOTS /\ pcr_locks s i = true).
Proof.
  intros Hc. eexists. split.
  { unfold NsmClientMore.get_attestation_doc, NsmClient.get_attestation.
    cbv [mbind PyM_bind NsmClient.with_transport].
    rewrite ModelProofs.get_attestation_open by exact Hc. reflexivity. }
  cbn [Types.from_payload Types.doc_pcrs Types.doc_locked_pcrs p_pcrs p_locked_pcrs session].
  rewrite Flags.locked_list_native.
  assert (Hlk : forall i, i ∈ (list_to_set (filter (fun i => pcr_locks s i = true)
                                 (seqZ 0 PCR_SLOTS)) : gset Z)
                  <-> 0 <= i < PCR_SLOTS /\ pcr_locks s i = true).
  { intros i. rewrite elem_of_list_to_set, list_elem_of_filter, elem_of_seqZ.
    unfold PCR_SLOTS. intuition lia. }
  split; [|split].
  - intros i Hi. split.
    + rewrite Flags.foldl_insert_lookup.
      rewrite decide_True by (apply elem_of_seqZ; lia).
      do 2 f_equal. destruct (pcr_locks s i) eqn:El;
        [apply bool_decide_eq_true | apply bool_decide_eq_false]; rewrite Hlk;
        [split; [exact Hi | exact El] | intros [_ E]; congruence].
    + apply ModelProofs.client_describe_open; [exact Hc | unfold PCR_SLOTS in Hi; lia].
  - intros i Hi. rewrite Flags.foldl_insert_lookup.
    rewrite decide_False by (rewrite elem_of_seqZ; lia). apply lookup_empty.
  - exact Hlk.
Qed.

End Native.

Module Certs.
Import NativeModel ModelProofs.
Section Certs.
Context `{Sha256}.

Lemma tr_set_certificate_ok s certs slot cert :
  closed s = false -> 0 <= slot < CERTIFICATE_SLOTS -> cert <> [] ->
  NsmTransport.set_certificate slot cert (mk_transport s certs)
  = (Ok (), mk_transport (set_cert s slot (Some cert)) (<[slot := true]> certs)).
Proof.
  intros Hc Hs Hd. unfold NsmTransport.set_certificate.
  erewrite bind_ok by (apply ffi_ok; unfold CERTIFICATE_SLOTS in Hs; lia).
  erewrite bind_ok.
  2:{ apply call_eq. cbn [nsm_set_certificate native]. unfold NativeModel.set_certificate.
      rewrite Hc. replace (slot >=? CERTIFICATE_SLOTS) with false by zb.
      rewrite bool_decide_false by exact Hd. reflexivity. }
  reflexivity.
Qed.

Lemma tr_describe_certificate_open s certs slot :
  closed s = false -> 0 <= slot < CERTIFICATE_SLOTS ->
  NsmTransport.describe_certificate slot (mk_transport s certs)
  = match cert_data s slot with
    | Some d => (Ok d, mk_transport s (<[slot := true]> certs))
    | None => (Raise (Exc NsmCertificateError None), mk_transport s certs)
    end.
Proof.
  intros Hc Hs. unfold NsmTransport.describe_certificate.
  erewrite bind_ok by (apply ffi_ok; unfold CERTIFICATE_SLOTS in Hs; lia).
  erewrite bind_ok by reflexivity.
  cbn [nsm_describe_certificate native session]. unfold NativeModel.describe_certificate.
  rewrite Hc. replace (slot >=? CERTIFICATE_SLOTS) with false by zb.
  destruct (cert_data s slot); reflexivity.
Qed.

Lemma tr_remove_certificate_ok s certs slot :
  closed s = false -> 0 <= slot < CERTIFICATE_SLOTS ->
  NsmTransport.remove_certificate slot (mk_transport s certs)
  = (Ok (), mk_transport (set_cert s slot None) (delete slot certs)).
Proof.
  intros Hc Hs. unfold NsmTransport.remove_certificate.
  erewrite bind_ok by (apply ffi_ok; unfold CERTIFICATE_SLOTS in Hs; lia).
  erewrite bind_ok.
  2:{ apply call_eq. cbn [nsm_remove_certificate native]. unfold NativeModel.remove_certificate.
      rewrite Hc. replace (slot >=? CERTIFICATE_SLOTS) with false by zb. reflexivity. }
  reflexivity.
Qed.

Lemma tr_describe_certificate_bad_slot s certs slot :
  closed s = false -> CERTIFICATE_SLOTS <= slot < 2 ^ 32 ->
  NsmTransport.describe_certificate slot (mk_transport s certs)
  = (Raise (Exc NsmCertificateError None), mk_transport s certs).
Proof.
  intros Hc Hs. unfold NsmTransport.describe_certificate.
  erewrite bind_ok by (apply ffi_ok; unfold CERTIFICATE_SLOTS in Hs; lia).
  erewrite bind_ok by reflexivity.
  cbn [nsm_describe_certificate native session]. unfold NativeModel.describe_certificate.
  rewrite Hc. replace (slot >=? CERTIFICATE_SLOTS) with true by zb. reflexivity.
Qed.

Lemma tr_set_certificate_bad_slot s certs slot cert :
  closed s = false -> CERTIFICATE_SLOTS <= slot < 2 ^ 32 ->
  NsmTransport.set_certificate slot cert (mk_transport s certs)
  = (Raise (Exc NsmCertificateError None), mk_transport s certs).
Proof.
  intros Hc Hs. unfold NsmTransport.set_certificate.
  erewrite bind_ok by (apply ffi_ok; unfold CERTIFICATE_SLOTS in Hs; lia).
  erewrite bind_ok.
  2:{ apply call_eq. cbn [nsm_set_certificate native]. unfold NativeModel.set_certificate.
      rewrite Hc. replace (slot >=? CERTIFICATE_SLOTS) with true by zb. reflexivity. }
  reflexivity.
Qed.

End Certs.
End Certs.

Section Native2.
Import NativeModel.
Context `{Sha256}.

(** X13: on an open native session, storing a non-empty certificate in a
    slot of [0, 4) makes [describe_certificate] return it; after
    [remove_certificate] describing the slot raises [NsmCertificateError].
    A slot of [4, 2 ** 32) is refused with [NsmCertificateError] by both
    [set_certificate] and [describe_certificate]. *)
Theorem certificate_set_describe_remove (s : nsm_session) certs slot cert :
  closed s = false -> 0 <= slot < CERTIFICATE_SLOTS -> cert <> [] ->
  let t1 := mk_transport (set_cert s slot (Some cert)) (<[slot := true]> certs) in
  let t2 := mk_transport (set_cert (set_cert s slot (Some cert)) slot None)
                         (delete slot (<[slot := true]> certs)) in
  NsmClient.set_certificate slot cert (Some (mk_transport s certs)) = (Ok (), Some t1) /\
  NsmClient.describe_certificate slot (Some t1) = (Ok cert, Some t1) /\
  NsmClient.remove_certificate slot (Some t1) = (Ok (), Some t2) /\
  NsmClient.describe_certificate slot (Some t2)
    = (Raise (Exc NsmCertificateError None), Some t2) /\
  (forall k, CERTIFICATE_SLOTS <= k < 2 ^ 32 ->
     NsmClient.set_certificate k cert (Some (mk_transport s certs))
       = (Raise (Exc NsmCertificateError None), Some (mk_transport s certs)) /\
     NsmClient.describe_certificate k (Some (mk_transport s certs))
       = (Raise (Exc NsmCertificateError None), Some (mk_transport s certs))).
Proof.
  intros Hc Hs Hd. cbv zeta.
  unfold NsmClient.set_certificate, NsmClient.describe_certificate,
    NsmClient.remove_certificate, NsmClient.with_transport.
  replace (slot <? 0) with false by zb.
  destruct cert as [|b rest]; [congruence|].
  rewrite Certs.tr_set_certificate_ok by assumption.
  rewrite Certs.tr_describe_certificate_open by assumption.
  cbn [set_cert cert_data closed]. rewrite Z.eqb_refl, insert_insert_eq.
  rewrite Certs.tr_remove_certificate_ok by assumption.
  rewrite Certs.tr_describe_certificate_open by assumption.
  cbn [set_cert cert_data]. rewrite Z.eqb_refl.
  split; [reflexivity|]. split; [reflexivity|]. split; [reflexivity|].
  split; [reflexivity|].
  intros k Hk. replace (k <? 0) with false by zb.
  rewrite Certs.tr_set_certificate_bad_slot, Certs.tr_describe_certificate_bad_slot
    by assumption.
  split; reflexivity.
Qed.

End Native2.

Module Cache.
Import NativeModel ModelProofs.
Section Cache.
Context `{Sha256}.

Lemma ck_ro {A} (m : PyM (transport nsm_session) A) : read_only m -> cache_keeps m.
Proof. intros Hr t Ht. rewrite Hr. exact Ht. Qed.

Lemma ck_bind {A B} (m : PyM (transport nsm_session) A) (f : A -> PyM (transport nsm_session) B) :
  cache_keeps m -> (forall a, cache_keeps (f a)) -> cache_keeps (mbind f m).
Proof.
  intros Hm Hf t Ht. unfold mbind, PyM_bind.
  specialize (Hm t Ht). destruct (m t) as [[a|e] t']; [apply Hf|]; exact Hm.
Qed.

Lemma ck_call {A} (f : nsm_session -> A * nsm_session) :
  (forall s, cert_data (snd (f s)) = cert_data s) -> cache_keeps (call f).
Proof.
  intros Hf [s certs] [H1 H2]. unfold call, cache_matches. cbn [session certificates] in *.
  specialize (Hf s). destruct (f s) as [a s']. cbn [snd session certificates] in *.
  split; intros k; rewrite Hf; [apply H1 | apply H2].
Qed.

Lemma cache_set s certs slot c :
  cache_matches (mk_transport s certs) -> 0 <= slot < CERTIFICATE_SLOTS ->
  cache_matches (mk_transport (set_cert s slot (Some c)) (<[slot := true]> certs)).
Proof.
  intros [H1 H2] Hs. cbn [session certificates] in *.
  unfold cache_matches; cbn [session certificates].
  split; intros k; cbn [set_cert cert_data].
  - rewrite lookup_insert_is_Some', H1.
    destruct (Z.eqb_spec k slot) as [->|Hne]; [split; auto|].
    split; [intros [->|Hk]; [congruence|exact Hk] | auto].
  - destruct (Z.eqb_spec k slot) as [->|Hne]; [auto | apply H2].
Qed.

Lemma cache_remove s certs slot :
  cache_matches (mk_transport s certs) ->
  cache_matches (mk_transport (set_cert s slot None) (delete slot certs)).
Proof.
  intros [H1 H2]. cbn [session certificates] in *.
  unfold cache_matches; cbn [session certificates].
  split; intros k; cbn [set_cert cert_data].
  - rewrite lookup_delete_is_Some, H1.
    destruct (Z.eqb_spec k slot) as [->|Hne].
    + split; [intros [Hn _]; congruence | intros [? Hx]; discriminate].
    + split; [intros [_ Hk]; exact Hk | intros Hk; split; [congruence | exact Hk]].
  - destruct (Z.eqb_spec k slot) as [->|Hne]; [intros [? Hx]; discriminate | apply H2].
Qed.

Lemma cache_describe s certs slot d :
  cache_matches (mk_transport s certs) -> cert_data s slot = Some d ->
  cache_matches (mk_transport s (<[slot := true]> certs)).
Proof.
  intros [H1 H2] Hd. cbn [session certificates] in *.
  unfold cache_matches; cbn [session certificates].
  split; [|exact H2]. intros k.
  rewrite lookup_insert_is_Some', H1.
  split; [intros [<-|Hk]; [rewrite Hd; eauto | exact Hk] | auto].
Qed.

Lemma ck_set_certificate slot cert : cache_keeps (NsmTransport.set_certificate slot cert).
Proof.
  intros [s certs] Ht.
  destruct (decide (0 <= slot < 2 ^ 32)) as [Hz|Hz].
  2:{ unfold NsmTransport.set_certificate.
      erewrite bind_raise by (apply ffi_overflow; exact Hz). exact Ht. }
  destruct (closed s) eqn:Hc.
  - rewrite set_certificate_closed by assumption. exact Ht.
  - destruct (decide (slot < CERTIFICATE_SLOTS)) as [Hs|Hs].
    + destruct cert as [|b rest].
      * unfold NsmTransport.set_certificate.
        erewrite bind_ok by (apply ffi_ok; exact Hz).
        erewrite bind_ok.
        2:{ apply call_eq. cbn [nsm_set_certificate native].
            unfold NativeModel.set_certificate. rewrite Hc.
            replace (slot >=? CERTIFICATE_SLOTS) with false by zb. reflexivity. }
        exact Ht.
      * rewrite Certs.tr_set_certificate_ok by (try assumption; try lia; discriminate).
        apply cache_set; [exact Ht | lia].
    + rewrite Certs.tr_set_certificate_bad_slot by (try assumption; lia). exact Ht.
Qed.

Lemma ck_describe_certificate slot : cache_keeps (NsmTransport.describe_certificate slot).
Proof.
  intros [s certs] Ht.
  destruct (decide (0 <= slot < 2 ^ 32)) as [Hz|Hz].
  2:{ unfold NsmTransport.describe_certificate.
      erewrite bind_raise by (apply ffi_overflow; exact Hz). exact Ht. }
  destruct (closed s) eqn:Hc.
  - unfold NsmTransport.describe_certificate.
    erewrite bind_ok by (apply ffi_ok; exact Hz).
    erewrite bind_ok by reflexivity.
    cbn [nsm_describe_certificate native session]. unfold NativeModel.describe_certificate.
    rewrite Hc. exact Ht.
  - destruct (decide (slot < CERTIFICATE_SLOTS)) as [Hs|Hs].
    + rewrite Certs.tr_describe_certificate_open by (try assumption; lia).
      destruct (cert_data s slot) eqn:Ed; [|exact Ht].
      eapply cache_describe; eassumption.
    + rewrite Certs.tr_describe_certificate_bad_slot by (try assumption; lia). exact Ht.
Qed.

Lemma ck_remove_certificate slot : cache_keeps (NsmTransport.remove_certificate slot).
Proof.
  intros [s certs] Ht.
  destruct (decide (0 <= slot < 2 ^ 32)) as [Hz|Hz].
  2:{ unfold NsmTransport.remove_certificate.
      erewrite bind_raise by (apply ffi_overflow; exact Hz). exact Ht. }
  unfold NsmTransport.remove_certificate.
  erewrite bind_ok by (apply ffi_ok; exact Hz).
  destruct (closed s) eqn:Hc.
  - erewrite bind_ok.
    2:{ apply call_eq. cbn [nsm_remove_certificate native].
        unfold NativeModel.remove_certificate. rewrite Hc. reflexivity. }
    exact Ht.
  - destruct (slot >=? CERTIFICATE_SLOTS) eqn:Hs.
    + erewrite bind_ok.
      2:{ apply call_eq. cbn [nsm_remove_certificate native].
          unfold NativeModel.remove_certificate. rewrite Hc, Hs. reflexivity. }
      exact Ht.
    + erewrite bind_ok.
      2:{ apply call_eq. cbn [nsm_remove_certificate native].
          unfold NativeModel.remove_certificate. rewrite Hc, Hs. reflexivity. }
      apply cache_remove, Ht.
Qed.

Ltac ck_step :=
  first
    [ apply ck_bind; [|intros ?]
    | apply ck_ro; first [apply ro_ret | apply ro_raise | apply ro_raise_error
                         | apply ro_call_ro | apply ro_ffi | apply ro_describe_pcr_raw]
    | apply ck_call; intros ?; cbn [nsm_extend_pcr nsm_lock_pcr nsm_lock_range
                                    nsm_session_close native];
      unfold NativeModel.extend_pcr, NativeModel.lock_pcr, lock_range, session_close;
      repeat case_match; simplify_eq/=; reflexivity
    | match goal with
      | |- cache_keeps (let '(_, _) := ?p in _) => destruct p
      | |- cache_keeps (if ?b then _ else _) => destruct b
      end ].

Lemma ck_client_op o t :
  cache_matches t -> exists t', NsmClient.run_op o (Some t) = Some t' /\ cache_matches t'.
Proof.
  intros Ht.
  assert (Hwt : forall A (m : PyM (transport nsm_session) A),
            cache_keeps m -> exists t', snd (NsmClient.with_transport m (Some t)) = Some t'
                                        /\ cache_matches t').
  { intros A m Hm. exists (snd (m t)). split; [apply InvProofs.with_transport_snd | apply Hm, Ht]. }
  destruct o; cbn [NsmClient.run_op];
    unfold NsmClient.describe_pcr, NsmClient.extend_pcr, NsmClient.lock_pcr,
      NsmClient.lock_pcrs, NsmClient.set_certificate, NsmClient.describe_certificate,
      NsmClient.remove_certificate, NsmClient.get_attestation, NsmClient.close;
    repeat match goal with
      | |- exists t', snd ((if ?b then _ else _) _) = _ /\ _ => destruct b
      | |- exists t', snd ((match ?x with _ => _ end) _) = _ /\ _ => destruct x
      | |- exists t', snd (raise _ _) = _ /\ _ => exists t; split; [reflexivity | exact Ht]
      end;
    apply Hwt.
  - repeat ck_step.
  - unfold NsmTransport.extend_pcr. repeat ck_step.
  - unfold NsmTransport.lock_pcr. repeat ck_step.
  - unfold NsmTransport.lock_pcrs. repeat ck_step.
  - apply ck_set_certificate.
  - apply ck_describe_certificate.
  - apply ck_remove_certificate.
  - apply ck_ro, ro_get_attestation.
  - unfold is_closed, NsmTransport.close. repeat ck_step.
Qed.

Lemma ck_run_ops ops t :
  cache_matches t -> exists t', NsmClient.run_ops ops (Some t) = Some t' /\ cache_matches t'.
Proof.
  revert t. induction ops as [|o ops IH]; intros t Ht; [exists t; auto|].
  destruct (ck_client_op o t Ht) as (t1 & E1 & H1). cbn [NsmClient.run_ops]. rewrite E1.
  apply IH, H1.
Qed.

Lemma cache_size t :
  cache_matches t ->
  size (certificates t)
  = length (filter (fun k => is_Some (cert_data (session t) k)) (seqZ 0 CERTIFICATE_SLOTS)).
Proof.
  intros [H1 H2]. rewrite <- size_dom.
  assert (E : dom (certificates t)
              = list_to_set (filter (fun k => is_Some (cert_data (session t) k))
                                    (seqZ 0 CERTIFICATE_SLOTS))).
  { apply leibniz_equiv, set_equiv. intros k.
    rewrite elem_of_dom, elem_of_list_to_set, list_elem_of_filter, elem_of_seqZ, H1.
    split; [intros Hk; split; [exact Hk | specialize (H2 k Hk); lia] | intros [Hk _]; exact Hk]. }
  rewrite E. apply size_list_to_set, NoDup_filter, NoDup_seqZ.
Qed.

End Cache.
End Cache.

Section Native3.
Import NativeModel NsmTransportMore.
Context `{Sha256}.

(** X12: after any sequence of client calls from a fresh native session
    (exceptions caught and ignored), the certificate cache of the transport
    has a key exactly for the native slots that hold a certificate, and the
    [certificates] count of [describe_nsm] is the number of such slots. *)
Theorem certificate_count_tracks_native mid ops t dp d t' :
  NsmClient.run_ops ops (Some (mk_transport (nsm_session_new mid) ∅)) = Some t ->
  (forall k, is_Some (certificates t !! k) <-> is_Some (cert_data (session t) k)) /\
  (describe_nsm dp t = (Ok d, t') ->
   d_certificates d
   = Z.of_nat (length (filter (fun k => is_Some (cert_data (session t) k))
                              (seqZ 0 CERTIFICATE_SLOTS)))).
Proof.
  intros E.
  assert (H0 : cache_matches (mk_transport (nsm_session_new mid) ∅)).
  { split; intros k; cbn; [rewrite lookup_empty; split; intros [? Hx]; discriminate|].
    intros [? Hx]; discriminate. }
  destruct (Cache.ck_run_ops ops _ H0) as (t1 & E1 & Ht1).
  rewrite E in E1. injection E1 as <-.
  split; [apply Ht1|]. intros Ed. unfold describe_nsm in Ed.
  apply bind_ok_inv in Ed as (mid' & t2 & Em & Ed).
  apply bind_ok_inv in Ed as (flags & t3 & Ef & Ed).
  apply bind_ok_inv in Ed as (n & t4 & En & Ed).
  cbv [mret PyM_ret] in Ed. injection Ed as <- _. cbn [d_certificates].
  pose proof (ro_state _ _ _ _ (ro_module_id (S := nsm_session)) Em) as ->.
  pose proof (ro_state _ _ _ _ (ro_locked_flags (S := nsm_session)) Ef) as ->.
  unfold certificate_count in En. injection En as <- _.
  rewrite Cache.cache_size by exact Ht1. reflexivity.
Qed.

End Native3.

Module Blocks.
Import NativeModel NsmClientMore.
Section Blocks.
Context `{Sha256}.

Lemma native_close_client (c : client nsm_session) :
  exists c', NsmClientMore.close c = (Ok (), c') /\ is_open c' = false.
Proof.
  unfold NsmClientMore.close, lift, is_open.
  destruct c as [dp [[[s certs] p]|]]; cbn [c_transport c_device_path].
  - unfold NsmClient.close, NsmClient.with_transport.
    erewrite bind_ok by reflexivity. cbn [nsm_session_is_closed native session].
    destruct (closed s) eqn:Hc.
    + eexists; split; [reflexivity|]. cbn. rewrite Hc. reflexivity.
    + rewrite ModelProofs.transport_close_open by exact Hc.
      eexists; split; reflexivity.
  - eexists; split; reflexivity.
Qed.

Lemma open_raise_client factory (c c1 : client nsm_session) e :
  open factory c = (Raise e, c1) -> c1 = c /\ is_open c = false.
Proof.
  destruct c as [dp ct]. unfold open, is_open. cbn [c_transport c_device_path].
  intros E. repeat case_match; simplify_eq/=; split; try reflexivity;
    repeat match goal with Hx : _ = true |- _ => rewrite Hx end; reflexivity.
Qed.

End Blocks.
End Blocks.

Section Native4.
Import NativeModel NsmClientMore.
Context `{Sha256}.

(** X16: on the native model, a [with] block always leaves the client
    closed, whatever the body does, and once [open()] succeeded the block
    returns (or raises) what the body returns (or raises). *)
Theorem with_block_always_closes {A} factory (body : PyM (client nsm_session) A)
    (c : client nsm_session) :
  is_open (snd (with_client factory body c)) = false /\
  (forall c1, open factory c = (Ok (), c1) ->
   fst (with_client factory body c) = fst (body c1)).
Proof.
  unfold with_client. destruct (open factory c) as [[u|e] c1] eqn:Eo.
  - destruct (body c1) as [[r|e] c2] eqn:Eb;
      destruct (Blocks.native_close_client c2) as (c3 & Ec & Ho); rewrite Ec;
      (split; [exact Ho|]); intros c1' E;
      injection E as _ Ec1; rewrite <- Ec1, Eb; reflexivity.
  - destruct (Blocks.open_raise_client _ _ _ _ Eo) as [-> Hc].
    split; [exact Hc | intros c1' E; congruence].
Qed.

End Native4.

(** ** Concrete runs of the properties above *)

Section Witnesses.
Import NativeModel Concrete NsmTransportMore NsmClientMore.
#[local] Existing Instance Concrete.stand_in_sha256.

Lemma hello_not_empty : hello <> [].
Proof. unfold hello. simpl. discriminate. Qed.

(** A closed session is reported the same way whatever the context. *)
Lemma raise_error_context_only_for_length_and_slot_witness :
  NSM_ERR_CLOSED <> NSM_ERR_INVALID_LENGTH /\ NSM_ERR_CLOSED <> NSM_ERR_INVALID_SLOT /\
  raise_error_exc NSM_ERR_CLOSED "pcr" = raise_error_exc NSM_ERR_CLOSED "random".
Proof.
  assert (H1 : NSM_ERR_CLOSED <> NSM_ERR_INVALID_LENGTH) by (unfold NSM_ERR_CLOSED, NSM_ERR_INVALID_LENGTH; lia).
  assert (H2 : NSM_ERR_CLOSED <> NSM_ERR_INVALID_SLOT) by (unfold NSM_ERR_CLOSED, NSM_ERR_INVALID_SLOT; lia).
  split; [exact H1|]. split; [exact H2|].
  exact (raise_error_context_only_for_length_and_slot NSM_ERR_CLOSED "pcr" "random" H1 H2).
Defined.

(** Slot [2 ** 32] on a fresh session. *)
Lemma slot_overflow_not_nsm_error_witness :
  2 ^ 32 <= 2 ^ 32 /\ hello <> [] /\
  NsmClient.describe_pcr (2 ^ 32) fresh_client
    = (Raise (Exc OverflowError None), fresh_client) /\
  NsmClient.set_certificate (2 ^ 32) hello fresh_client
    = (Raise (Exc OverflowError None), fresh_client).
Proof.
  destruct (slot_overflow_not_nsm_error fresh_transport (2 ^ 32) hello
              ltac:(lia) hello_not_empty) as (E1 & _ & _ & _ & E5 & _).
  split; [lia|]. split; [exact hello_not_empty|]. split; [exact E1 | exact E5].
Defined.

(** [describe_nsm] and [get_attestation] on a fresh session. *)
Lemma describe_nsm_agrees_with_attestation_witness :
  exists pl d,
    NsmTransport.get_attestation 0 None None None fresh_transport = (Ok pl, fresh_transport) /\
    NsmTransportMore.describe_nsm DEFAULT_DEVICE_PATH fresh_transport = (Ok d, fresh_transport) /\
    d_module_id d = p_module_id pl /\ d_locked_pcrs d = p_locked_pcrs pl.
Proof.
  eexists. eexists.
  pose proof (ModelProofs.get_attestation_open fresh_transport 0 None None None eq_refl) as E1.
  assert (E2 : NsmTransportMore.describe_nsm DEFAULT_DEVICE_PATH fresh_transport
               = (Ok (mk_description "i-0123456789abcdef0" DEFAULT_DEVICE_PATH 32 4 [] 0),
                  fresh_transport)) by reflexivity.
  split; [exact E1|]. split; [exact E2|].
  exact (describe_nsm_agrees_with_attestation fresh_transport 0 None None None
           DEFAULT_DEVICE_PATH _ _ _ _ E1 E2).
Defined.

(** The document of an attestation of a fresh session for [b"hello"]. *)
Lemma attestation_document_echoes_payload_witness :
  exists pl,
    NsmTransport.get_attestation 0 (Some hello) None None fresh_transport
      = (Ok pl, fresh_transport) /\
    Types.td_locked_pcrs (Types.to_dict (Types.from_payload pl)) = p_locked_pcrs pl /\
    Types.doc_user_data (Types.from_payload pl) = Some hello.
Proof.
  pose proof (ModelProofs.get_attestation_open fresh_transport 0 (Some hello) None None
                eq_refl) as E.
  destruct (attestation_document_echoes_payload fresh_transport 0 (Some hello) None None
              _ _ E) as (Hl & _ & Hu & _).
  eexists. split; [exact E|]. split; [exact Hl | exact Hu].
Defined.

(** The document of a fresh session holds slot 0 with a zero digest. *)
Lemma attestation_document_pcrs_native_witness :
  closed (session fresh_transport) = false /\
  exists doc,
    NsmClientMore.get_attestation_doc 0 None None None fresh_client = (Ok doc, fresh_client) /\
    Types.doc_pcrs doc !! 0 = Some (NsmClient.mk_PcrValue 0 zero_digest false).
Proof.
  split; [reflexivity|].
  destruct (attestation_document_pcrs_native (nsm_session_new "i-0123456789abcdef0") ∅
              0 None None None eq_refl) as (doc & E & Hin & _).
  exists doc. split; [exact E|].
  exact (proj1 (Hin 0 ltac:(unfold PCR_SLOTS; lia))).
Defined.

(** Setting certificates 0 and 1 and reading 0 back: two slots counted. *)
Lemma certificate_count_tracks_native_witness :
  let ops := [NsmClient.OpSetCertificate 0 hello; NsmClient.OpDescribeCertificate 0;
              NsmClient.OpSetCertificate 1 hello; NsmClient.OpDescribeCertificate 3] in
  let t := match NsmClient.run_ops ops fresh_client with
           | Some t => t | None => fresh_transport end in
  let d := match fst (NsmTransportMore.describe_nsm DEFAULT_DEVICE_PATH t) with
           | Ok d => d | Raise _ => mk_description "" "" 0 0 [] 0 end in
  NsmClient.run_ops ops fresh_client = Some t /\
  NsmTransportMore.describe_nsm DEFAULT_DEVICE_PATH t = (Ok d, t) /\
  d_certificates d = 2.
Proof.
  intros ops t d.
  assert (E1 : NsmClient.run_ops ops fresh_client = Some t) by reflexivity.
  assert (E2 : NsmTransportMore.describe_nsm DEFAULT_DEVICE_PATH t = (Ok d, t)) by reflexivity.
  split; [exact E1|]. split; [exact E2|].
  rewrite (proj2 (certificate_count_tracks_native "i-0123456789abcdef0" ops t
                    DEFAULT_DEVICE_PATH d t E1) E2).
  reflexivity.
Defined.

(** Certificate slot 0 of a fresh session. *)
Lemma certificate_set_describe_remove_witness :
  closed (session fresh_transport) = false /\ 0 <= 0 < CERTIFICATE_SLOTS /\ hello <> [] /\
  NsmClient.describe_certificate 0
    (Some (mk_transport (set_cert (nsm_session_new "i-0123456789abcdef0") 0 (Some hello))
             (<[0 := true]> ∅)))
  = (Ok hello,
     Some (mk_transport (set_cert (nsm_session_new "i-0123456789abcdef0") 0 (Some hello))
             (<[0 := true]> ∅))).
Proof.
  assert (Hs : 0 <= 0 < CERTIFICATE_SLOTS) by (unfold CERTIFICATE_SLOTS; lia).
  split; [reflexivity|]. split; [exact Hs|]. split; [exact hello_not_empty|].
  exact (proj1 (proj2 (certificate_set_describe_remove
                         (nsm_session_new "i-0123456789abcdef0") ∅ 0 hello
                         eq_refl Hs hello_not_empty))).
Defined.

(** [NsmClient(device_path="")] before and after [open()]. *)
Lemma device_path_empty_string_witness :
  let c := mk_client (Some EmptyString) None in
  let c' := mk_client (Some EmptyString)
              (Some (mk_transport (nsm_session_new "i-0123456789abcdef0") ∅,
                     DEFAULT_DEVICE_PATH)) in
  c_device_path c = Some EmptyString /\ c_transport c = None /\
  open (new_transport (H := MoreConcrete.fresh_session_new) (fun p => p) (fun _ => true)) c
    = (Ok (), c') /\
  device_path c = EmptyString /\ device_path c' = DEFAULT_DEVICE_PATH.
Proof.
  intros c c'.
  assert (E : open (new_transport (H := MoreConcrete.fresh_session_new) (fun p => p)
                      (fun _ => true)) c = (Ok (), c')) by reflexivity.
  split; [reflexivity|]. split; [reflexivity|]. split; [exact E|].
  exact (device_path_empty_string (L := native) (H := MoreConcrete.fresh_session_new)
           (fun p => p) (fun _ => true) c c' eq_refl eq_refl E).
Defined.

(** A fresh session whose module id pointer is NULL. *)
Lemma module_id_failure_not_wrapped_witness :
  let snap := match fst (attestation_snapshot (L := MoreConcrete.anonymous_native)
                           None None None fresh_transport) with
              | Ok sn => sn | Raise _ => ([], [], []) end in
  attestation_snapshot (L := MoreConcrete.anonymous_native) None None None fresh_transport
    = (Ok snap, fresh_transport) /\
  NsmTransport.get_attestation (L := MoreConcrete.anonymous_native) 0 None None None
    fresh_transport = (Raise (Exc NsmError None), fresh_transport).
Proof.
  intros snap.
  assert (E : attestation_snapshot (L := MoreConcrete.anonymous_native) None None None
                fresh_transport = (Ok snap, fresh_transport)) by reflexivity.
  split; [exact E|].
  exact (module_id_failure_not_wrapped (L := MoreConcrete.anonymous_native) fresh_transport
           0 None None None snap eq_refl E eq_refl).
Defined.

End Witnesses.
End Extras.
